(** * Status synchronisation of Plans and Tasks

    A shallow embedding of the request handlers of
    [app/api/v1/endpoints/task.py] ([get_task], [get_tasks], [create_task],
    [update_task], [delete_task]) over an explicit model of the database
    session, together with the properties of the status cascade between a
    Task and its parent Plan.

    The handlers are [async def] functions.  A call of an [async def]
    function builds a coroutine object; its body runs when the coroutine is
    awaited.  The embedding keeps that distinction: a store operation is a
    value of type [Coroutine A], and only [await] runs it against the
    session. *)

From stdpp Require Import gmap strings list fin_maps.

Set Default Proof Using "Type".

(** ** Data model *)

(** Modelled from the spec: [schemas.base.PK_TYPE] is not among these
    sources; the integer primary key ("id") of a row. *)
Definition PK_TYPE := Z.

(** Modelled from the spec: [schemas.base.USER_PK_TYPE] is not among these
    sources; the key under which the identity service knows a user
    ("User{id, role, supervisorId?}").  Keys are issued by that service and
    are never zero or empty, so the truth value of [user.supervisor_id] is
    its presence. *)
Definition USER_PK_TYPE := positive.

(** [datetime.date], as its proleptic Gregorian ordinal ([date.toordinal()]);
    Python orders dates exactly as their ordinals. *)
Definition date := Z.

(** Modelled from the spec: [schemas.task.TaskStatus] and
    [schemas.plan.PlanStatus] are not among these sources.
    "status ∈ {CREATED, IN_PROGRESS, DONE}" for both. *)
Module TaskStatus.
Inductive t := CREATED | IN_PROGRESS | DONE.

Definition eqb (a b : t) : bool :=
  match a, b with
  | CREATED, CREATED | IN_PROGRESS, IN_PROGRESS | DONE, DONE => true
  | _, _ => false
  end.

#[global] Instance task_status_eq_dec : EqDecision t.
Proof. solve_decision. Defined.
End TaskStatus.

Module PlanStatus.
Inductive t := CREATED | IN_PROGRESS | DONE.

Definition eqb (a b : t) : bool :=
  match a, b with
  | CREATED, CREATED | IN_PROGRESS, IN_PROGRESS | DONE, DONE => true
  | _, _ => false
  end.

#[global] Instance plan_status_eq_dec : EqDecision t.
Proof. solve_decision. Defined.
End PlanStatus.

(** Modelled from the spec: [schemas.comment.CommentType] is not among
    these sources; the handlers use [TEXT] only. *)
Module CommentType.
Inductive t := TEXT.
End CommentType.

(** Modelled from the spec: the table models are not among these sources.
    A row has the columns that the handlers read or write: [task.id],
    [task.plan_id], [task.status], the optional expiry; [plan.status] and
    the optional expiry of a Plan; the four fields [create_task] gives a
    Comment. *)
Module Task.
Record t := Build {
  id : PK_TYPE;
  plan_id : PK_TYPE;
  status : TaskStatus.t;
  expires_at : option date
}.
End Task.

Module Plan.
Record t := Build {
  id : PK_TYPE;
  status : PlanStatus.t;
  expires_at : option date
}.
End Plan.

Module Comment.
Record t := Build {
  task_id : PK_TYPE;
  author_id : USER_PK_TYPE;
  type : CommentType.t;
  content : string
}.
End Comment.

(** Modelled from the spec: [schemas.task.TaskCreate] and
    [schemas.task.TaskUpdate] are not among these sources; the request
    bodies, with the fields the handlers read.  A field that the client left
    out is [None]. *)
Module TaskCreate.
Record t := Build { expires_at : option date }.
End TaskCreate.

Module TaskUpdate.
Record t := Build {
  status : option TaskStatus.t;
  expires_at : option date
}.
End TaskUpdate.

(** Modelled from the spec: [services.user.User] is not among these
    sources.  "User{id, role, supervisorId?}". *)
Module User.
Record t := Build {
  id : USER_PK_TYPE;
  role : string;
  supervisor_id : option USER_PK_TYPE
}.
End User.

(** The three tables, keyed by primary key. *)
Record DB := MkDB {
  tasks : gmap Z Task.t;
  plans : gmap Z Plan.t;
  comments : gmap Z Comment.t
}.

(** ** Errors, sessions and coroutines *)

(** The failures a request can end in: the three raised by the validators,
    the Python exceptions that an attribute access on an object without the
    attribute and an index into an empty sequence raise, and the error of a
    return value that does not fit the [response_model] of the route. *)
Inductive Error :=
| NotFound
| Forbidden
| InvalidDate
| AttributeError
| IndexError
| ResponseValidationError.

Inductive Result (A : Type) :=
| Ok (a : A)
| Raise (e : Error).
Arguments Ok {A} a.
Arguments Raise {A} e.

(** Calls made on the collaborators during a request, oldest first. *)
Inductive Call :=
| Call_check_task_and_user_access (task_id : PK_TYPE) (user_id : USER_PK_TYPE)
| Call_check_plan_and_user_access (plan_id : PK_TYPE) (user_id : USER_PK_TYPE)
| Call_check_role (user : User.t)
| Call_check_plan_tasks_expired_date (plan : Plan.t) (expires_at : date)
| Call_check_new_date_gt_current (task : Task.t) (expires_at : date)
| Call_task_get_all (plan_id : PK_TYPE)
| Call_task_create (plan_id : PK_TYPE)
| Call_task_update (task_id : PK_TYPE) (values : TaskUpdate.t)
| Call_task_delete (task_id : PK_TYPE)
| Call_comment_create (task_id : PK_TYPE)
| Call_plan_update (plan_id : PK_TYPE) (status : PlanStatus.t).

(** The session: the committed content of the database and the log of the
    calls that were run against it. *)
Record AsyncSession := MkSession {
  db : DB;
  calls : list Call
}.

(** A coroutine: run against a session it yields a value or raises, and
    leaves the session as its committed writes made it.  A raised error does
    not undo the writes that were committed before it. *)
Definition Coroutine (A : Type) := AsyncSession -> Result A * AsyncSession.

Definition ret {A} (a : A) : Coroutine A := fun s => (Ok a, s).

Definition raise {A} (e : Error) : Coroutine A := fun s => (Raise e, s).

Definition bind {A B} (c : Coroutine A) (k : A -> Coroutine B) : Coroutine B :=
  fun s =>
    match c s with
    | (Ok a, s') => k a s'
    | (Raise e, s') => (Raise e, s')
    end.

(** [await c] runs the coroutine [c]. *)
Definition await {A} (c : Coroutine A) : Coroutine A := c.

Declare Scope coroutine_scope.
Delimit Scope coroutine_scope with coroutine.
Notation "x <~ c ;; k" := (bind c (fun x => k))
  (at level 100, c at next level, right associativity) : coroutine_scope.
Notation "c ;;; k" := (bind c (fun _ => k))
  (at level 100, right associativity) : coroutine_scope.
Local Open Scope coroutine_scope.

Definition log (c : Call) : Coroutine unit :=
  fun s => (Ok tt, MkSession (db s) (calls s ++ [c])).

Definition read_db : Coroutine DB := fun s => (Ok (db s), s).

Definition write_db (d : DB) : Coroutine unit :=
  fun s => (Ok tt, MkSession d (calls s)).

(** The outcome and the final session of a request. *)
Definition outcome {A} (c : Coroutine A) (s : AsyncSession) : Result A := (c s).1.
Definition session_after {A} (c : Coroutine A) (s : AsyncSession) : AsyncSession := (c s).2.

(** ** Collaborators outside these sources *)

(** Modelled from the spec: the parts of the validators that depend on data
    held elsewhere ("external collaborators"), taken as parameters: the
    ownership and supervisory-chain relation between users and rows, the
    roles that may mutate, and the rendering of a date by
    [strftime("%d.%m.%Y")].  No handler writes any of them.  The last field
    is what [check_new_date_gt_current] answers for a Task that has no
    expiry; its contract, "fails if candidateExpiry is not strictly after
    task.expiry", does not say, so the answer is a parameter too. *)
Record Collaborators := MkCollaborators {
  may_access_task : USER_PK_TYPE -> PK_TYPE -> bool;
  may_access_plan : USER_PK_TYPE -> PK_TYPE -> bool;
  role_permits_mutation : string -> bool;
  strftime_dmY : date -> string;
  new_date_for_undated_task : Result unit
}.

(** ** Python values *)

(** Truth value of an [int]. *)
Definition int_truthy (n : nat) : bool := negb (n =? 0).

(** Truth value of an optional value whose present values are all truthy
    (a [date], a user key). *)
Definition opt_truthy {A} (o : option A) : bool :=
  match o with Some _ => true | None => false end.

(** The objects that meet in [list.count]: the rows of a result sequence and
    a function object. *)
Inductive PyObject :=
| PyRow (t : Task.t)
| PyLambda (f : Task.t -> bool).

(** [x == y].  Neither class defines [__eq__], so an object is equal only to
    itself.  The session holds one object for each primary key, and the
    lambda written in an argument position is a new object: it equals no row
    and no other object. *)
Definition py_eq (x y : PyObject) : bool :=
  match x, y with
  | PyRow a, PyRow b => bool_decide (Task.id a = Task.id b)
  | _, _ => false
  end.

(** [l.count(x)]: the number of elements of [l] that are equal to [x]. *)
Definition list_count (l : list PyObject) (x : PyObject) : nat :=
  length (filter (fun y => py_eq y x = true) l).

(** What the name [task] is bound to in [get_task]: the row the access
    validator returns, then the sequence [task_crud.update] returns. *)
Inductive TaskValue :=
| ATask (t : Task.t)
| ASequence (rows : list Task.t).

(** [task.plan_id]: a row has the attribute, a [list] has not. *)
Definition getattr_plan_id (v : TaskValue) : Coroutine PK_TYPE :=
  match v with
  | ATask t => ret (Task.plan_id t)
  | ASequence _ => raise AttributeError
  end.

(** [response_model=TaskReadWithComments]: the value a handler returns is
    serialised as one Task; a sequence does not fit. *)
Definition respond_with_task (v : TaskValue) : Coroutine Task.t :=
  match v with
  | ATask t => ret t
  | ASequence _ => raise ResponseValidationError
  end.

(** ** Stores *)

Definition set_tasks (d : DB) (m : gmap Z Task.t) : DB :=
  MkDB m (plans d) (comments d).
Definition set_plans (d : DB) (m : gmap Z Plan.t) : DB :=
  MkDB (tasks d) m (comments d).
Definition set_comments (d : DB) (m : gmap Z Comment.t) : DB :=
  MkDB (tasks d) (plans d) m.

(** The values of an [UPDATE] applied to a row: a column that is not among
    the values keeps its content. *)
Definition apply_task_values (v : TaskUpdate.t) (t : Task.t) : Task.t :=
  Task.Build (Task.id t) (Task.plan_id t)
    (default (Task.status t) (TaskUpdate.status v))
    (match TaskUpdate.expires_at v with
     | Some d => Some d
     | None => Task.expires_at t
     end).

Definition apply_plan_status (st : PlanStatus.t) (p : Plan.t) : Plan.t :=
  Plan.Build (Plan.id p) st (Plan.expires_at p).

(** Modelled from the spec: [db.crud.task_crud.get_all] is not among these
    sources.  "getAll(filter) → sequence<entity>": the rows whose [plan_id]
    is the one of the filter. *)
Definition task_crud_get_all (plan_id : PK_TYPE) : Coroutine (list Task.t) :=
  log (Call_task_get_all plan_id) ;;;
  d <~ read_db ;;
  ret (filter (fun t => Task.plan_id t = plan_id) (map_to_list (tasks d)).*2).

(** Modelled from the spec: [db.crud.task_crud.create] is not among these
    sources.  "create(fields) → entity", and "new Task starts CREATED": the
    row gets a key that no row has, the fields of the request body, the
    [plan_id] the handler adds, and status CREATED. *)
Definition task_crud_create (fields : TaskCreate.t) (plan_id : PK_TYPE) : Coroutine Task.t :=
  log (Call_task_create plan_id) ;;;
  d <~ read_db ;;
  let task := Task.Build (fresh (dom (tasks d))) plan_id TaskStatus.CREATED
                (TaskCreate.expires_at fields) in
  write_db (set_tasks d (<[Task.id task := task]> (tasks d))) ;;;
  ret task.

(** Modelled from the spec: [db.crud.task_crud.update] is not among these
    sources.  "update(filter, fields) → sequence<entity> (may affect multiple
    rows; callers needing a single result take the first)": the row with the
    key of the filter, when there is one, takes the values; the sequence of
    the rows written is returned, to [get_task] as to [update_task]. *)
Definition task_crud_update (task_id : PK_TYPE) (values : TaskUpdate.t)
  : Coroutine (list Task.t) :=
  log (Call_task_update task_id values) ;;;
  d <~ read_db ;;
  match tasks d !! task_id with
  | Some t =>
      let t' := apply_task_values values t in
      write_db (set_tasks d (<[task_id := t']> (tasks d))) ;;;
      ret [t']
  | None => ret []
  end.

(** Modelled from the spec: [db.crud.task_crud.delete] is not among these
    sources.  "delete(filter) → ()"; the Comments of the Task go with it
    ("Task owns its Comments absolutely (cascade delete expected at the store
    layer ...)"). *)
Definition task_crud_delete (task_id : PK_TYPE) : Coroutine unit :=
  log (Call_task_delete task_id) ;;;
  d <~ read_db ;;
  write_db (MkDB (delete task_id (tasks d)) (plans d)
              (filter (fun kc => Comment.task_id kc.2 ≠ task_id) (comments d))).

(** Modelled from the spec: [db.crud.comment_crud.create] is not among these
    sources.  "create(fields) → entity". *)
Definition comment_crud_create (fields : Comment.t) : Coroutine Comment.t :=
  log (Call_comment_create (Comment.task_id fields)) ;;;
  d <~ read_db ;;
  write_db (set_comments d (<[fresh (dom (comments d)) := fields]> (comments d))) ;;;
  ret fields.

(** Modelled from the spec: [db.crud.plan_crud.update] is not among these
    sources.  Same contract as the update of a Task, with the status as the
    only value the handlers pass. *)
Definition plan_crud_update (plan_id : PK_TYPE) (status : PlanStatus.t)
  : Coroutine (list Plan.t) :=
  log (Call_plan_update plan_id status) ;;;
  d <~ read_db ;;
  match plans d !! plan_id with
  | Some p =>
      let p' := apply_plan_status status p in
      write_db (set_plans d (<[plan_id := p']> (plans d))) ;;;
      ret [p']
  | None => ret []
  end.

Section Handlers.
Variable env : Collaborators.

(** ** Validators *)

(** Modelled from the spec: [api.v1.validators.check_task_and_user_access] is
    not among these sources.  "Looks up the entity; fails NotFound if absent;
    fails Forbidden if the requesting user is neither the owning subject nor
    in its supervisory chain.  Side effect: none — read-only." *)
Definition check_task_and_user_access (task_id : PK_TYPE) (user_id : USER_PK_TYPE)
  : Coroutine Task.t :=
  log (Call_check_task_and_user_access task_id user_id) ;;;
  d <~ read_db ;;
  match tasks d !! task_id with
  | None => raise NotFound
  | Some task =>
      if may_access_task env user_id task_id then ret task else raise Forbidden
  end.

(** Modelled from the spec: [api.v1.validators.check_plan_and_user_access] is
    not among these sources; the same contract for a Plan. *)
Definition check_plan_and_user_access (plan_id : PK_TYPE) (user_id : USER_PK_TYPE)
  : Coroutine Plan.t :=
  log (Call_check_plan_and_user_access plan_id user_id) ;;;
  d <~ read_db ;;
  match plans d !! plan_id with
  | None => raise NotFound
  | Some plan =>
      if may_access_plan env user_id plan_id then ret plan else raise Forbidden
  end.

(** Modelled from the spec: [api.v1.validators.check_role] is not among these
    sources.  "fails unless the user's role permits mutation ... Pure
    predicate, no state." *)
Definition check_role (user : User.t) : Coroutine unit :=
  log (Call_check_role user) ;;;
  if role_permits_mutation env (User.role user) then ret tt else raise Forbidden.

(** Modelled from the spec: [api.v1.validators.check_plan_tasks_expired_date]
    is not among these sources.  "fails if candidateExpiry is not strictly
    after the current date, or (when plan.expiry is set) exceeds
    plan.expiry."  [today] is the reading of the clock. *)
Definition check_plan_tasks_expired_date (today : date) (plan : Plan.t)
    (expires_at : date) : Coroutine unit :=
  log (Call_check_plan_tasks_expired_date plan expires_at) ;;;
  if bool_decide (expires_at ≤ today)%Z then raise InvalidDate
  else
    match Plan.expires_at plan with
    | Some plan_expiry =>
        if bool_decide (plan_expiry < expires_at)%Z then raise InvalidDate
        else ret tt
    | None => ret tt
    end.

(** Modelled from the spec: [api.v1.validators.check_new_date_gt_current] is
    not among these sources.  "fails if candidateExpiry is not strictly after
    task.expiry (prevents moving deadlines backward)."  For a Task without
    an expiry the contract gives no answer: the answer is the one of the
    collaborators. *)
Definition check_new_date_gt_current (task : Task.t) (expires_at : date)
  : Coroutine unit :=
  log (Call_check_new_date_gt_current task expires_at) ;;;
  match Task.expires_at task with
  | Some current =>
      if bool_decide (current < expires_at)%Z then ret tt else raise InvalidDate
  | None => fun s => (new_date_for_undated_task env, s)
  end.

(** ** Request handlers of [app/api/v1/endpoints/task.py] *)

(** [GET /tasks/{task_id}].  Inside the guard the name [task] is bound
    again, to what [task_crud.update] returns, and [task.plan_id] is read
    off that value. *)
Definition get_task (task_id : PK_TYPE) (user : User.t) : Coroutine Task.t :=
  task <~ await (check_task_and_user_access task_id (User.id user)) ;;
  if TaskStatus.eqb (Task.status task) TaskStatus.CREATED
     && opt_truthy (User.supervisor_id user)
  then
    task <~ await (task_crud_update task_id
                     (TaskUpdate.Build (Some TaskStatus.IN_PROGRESS) None)) ;;
    plan_id <~ getattr_plan_id (ASequence task) ;;
    await (plan_crud_update plan_id PlanStatus.IN_PROGRESS) ;;;
    respond_with_task (ASequence task)
  else respond_with_task (ATask task).

(** [GET /plans/{plan_id}/tasks] *)
Definition get_tasks (plan_id : PK_TYPE) (user : User.t) : Coroutine (list Task.t) :=
  await (check_plan_and_user_access plan_id (User.id user)) ;;;
  await (task_crud_get_all plan_id).

(** [POST /plans/{plan_id}/tasks].  [today] is what [date.today()] returns
    during the request.  The last call of [plan_crud.update] is not awaited:
    the coroutine object is built and dropped. *)
Definition create_task (today : date) (plan_id : PK_TYPE)
    (task_create : TaskCreate.t) (user : User.t) : Coroutine Task.t :=
  plan <~ await (check_plan_and_user_access plan_id (User.id user)) ;;
  await (check_role user) ;;;
  (match TaskCreate.expires_at task_create with
   | Some expires_at =>
       await (check_plan_tasks_expired_date today plan expires_at)
   | None => ret tt
   end) ;;;
  task <~ await (task_crud_create task_create plan_id) ;;
  await (comment_crud_create
           (Comment.Build (Task.id task) (User.id user) CommentType.TEXT
              ("Задача создана " +:+ strftime_dmY env today))) ;;;
  (if PlanStatus.eqb (Plan.status plan) PlanStatus.DONE
   then
     let _coroutine := plan_crud_update plan_id PlanStatus.IN_PROGRESS in
     ret tt
   else ret tt) ;;;
  ret task.

(** [PATCH /tasks/{task_id}].  The argument of [count] is the lambda itself,
    and the call of [plan_crud.update] is not awaited. *)
Definition update_task (task_id : PK_TYPE) (task_patch : TaskUpdate.t)
    (user : User.t) : Coroutine Task.t :=
  task <~ await (check_task_and_user_access task_id (User.id user)) ;;
  await (check_role user) ;;;
  (match TaskUpdate.expires_at task_patch with
   | Some expires_at => await (check_new_date_gt_current task expires_at)
   | None => ret tt
   end) ;;;
  new_task <~ await (task_crud_update task_id task_patch) ;;
  (if bool_decide (TaskUpdate.status task_patch = Some TaskStatus.DONE)
   then
     tasks_not_done <~ await (task_crud_get_all (Task.plan_id task)) ;;
     if int_truthy
          (list_count (PyRow <$> tasks_not_done)
             (PyLambda (fun x => negb (TaskStatus.eqb (Task.status x) TaskStatus.DONE))))
     then
       let _coroutine := plan_crud_update (Task.plan_id task) PlanStatus.DONE in
       ret tt
     else ret tt
   else ret tt) ;;;
  match new_task with
  | t :: _ => ret t
  | [] => raise IndexError
  end.

(** [DELETE /tasks/{task_id}] *)
Definition delete_task (task_id : PK_TYPE) (user : User.t) : Coroutine unit :=
  await (check_task_and_user_access task_id (User.id user)) ;;;
  await (check_role user) ;;;
  await (task_crud_delete task_id).

End Handlers.

(** ** Sequences of requests *)

Inductive Request :=
| GetTask (task_id : PK_TYPE) (user : User.t)
| CreateTask (today : date) (plan_id : PK_TYPE) (task_create : TaskCreate.t) (user : User.t)
| UpdateTask (task_id : PK_TYPE) (task_patch : TaskUpdate.t) (user : User.t)
| DeleteTask (task_id : PK_TYPE) (user : User.t).

(** The session a request leaves behind, whatever its response. *)
Definition serve (env : Collaborators) (r : Request) (s : AsyncSession) : AsyncSession :=
  match r with
  | GetTask task_id user => session_after (get_task env task_id user) s
  | CreateTask today plan_id task_create user =>
      session_after (create_task env today plan_id task_create user) s
  | UpdateTask task_id task_patch user =>
      session_after (update_task env task_id task_patch user) s
  | DeleteTask task_id user => session_after (delete_task env task_id user) s
  end.

Definition serve_all (env : Collaborators) (rs : list Request) (s : AsyncSession)
  : AsyncSession :=
  foldl (fun s r => serve env r s) s rs.

(** No Plan is DONE while one of its Tasks is not. *)
Definition plan_done_invariant (d : DB) : Prop :=
  map_Forall (fun plan_id plan =>
    Plan.status plan = PlanStatus.DONE →
    map_Forall (fun _ task =>
      Task.plan_id task = plan_id → Task.status task = TaskStatus.DONE)
      (tasks d))
    (plans d).

#[global] Instance plan_done_invariant_dec (d : DB) : Decision (plan_done_invariant d).
Proof. unfold plan_done_invariant. apply _. Defined.

(** A request that neither creates a Task under a DONE Plan nor moves a Task
    of a DONE Plan to a status other than DONE. *)
Definition keeps_done_plans_closed (r : Request) (d : DB) : bool :=
  match r with
  | CreateTask _ plan_id _ _ =>
      match plans d !! plan_id with
      | Some plan => negb (PlanStatus.eqb (Plan.status plan) PlanStatus.DONE)
      | None => true
      end
  | UpdateTask task_id task_patch _ =>
      match tasks d !! task_id, TaskUpdate.status task_patch with
      | Some task, Some st =>
          match plans d !! Task.plan_id task with
          | Some plan =>
              TaskStatus.eqb st TaskStatus.DONE
              || negb (PlanStatus.eqb (Plan.status plan) PlanStatus.DONE)
          | None => true
          end
      | _, _ => true
      end
  | GetTask _ _ | DeleteTask _ _ => true
  end.

Fixpoint all_keep_done_plans_closed (env : Collaborators) (rs : list Request)
    (s : AsyncSession) : bool :=
  match rs with
  | [] => true
  | r :: rs' =>
      keeps_done_plans_closed r (db s)
      && all_keep_done_plans_closed env rs' (serve env r s)
  end.

(** The calls that write to a store, and the calls of the temporal
    validators. *)
Definition is_write (c : Call) : bool :=
  match c with
  | Call_task_create _ | Call_task_update _ _ | Call_task_delete _
  | Call_comment_create _ | Call_plan_update _ _ => true
  | _ => false
  end.

Definition is_temporal (c : Call) : bool :=
  match c with
  | Call_check_plan_tasks_expired_date _ _
  | Call_check_new_date_gt_current _ _ => true
  | _ => false
  end.

(** The validator calls of each use case, in the order the handler makes
    them. *)
Definition create_task_validators (env : Collaborators) (today : date)
    (plan_id : PK_TYPE) (task_create : TaskCreate.t) (user : User.t) : Coroutine unit :=
  plan <~ await (check_plan_and_user_access env plan_id (User.id user)) ;;
  await (check_role env user) ;;;
  match TaskCreate.expires_at task_create with
  | Some expires_at =>
      await (check_plan_tasks_expired_date today plan expires_at)
  | None => ret tt
  end.

Definition update_task_validators (env : Collaborators) (task_id : PK_TYPE)
    (task_patch : TaskUpdate.t) (user : User.t) : Coroutine unit :=
  task <~ await (check_task_and_user_access env task_id (User.id user)) ;;
  await (check_role env user) ;;;
  match TaskUpdate.expires_at task_patch with
  | Some expires_at => await (check_new_date_gt_current env task expires_at)
  | None => ret tt
  end.

Definition delete_task_validators (env : Collaborators) (task_id : PK_TYPE)
    (user : User.t) : Coroutine unit :=
  await (check_task_and_user_access env task_id (User.id user)) ;;;
  await (check_role env user).

(** The Task as a first view leaves it. *)
Definition viewed (task : Task.t) : Task.t :=
  Task.Build (Task.id task) (Task.plan_id task) TaskStatus.IN_PROGRESS
    (Task.expires_at task).

(** ** Scenarios *)

Local Open Scope Z_scope.

(** Collaborators that let every user act on every row. *)
Definition permissive : Collaborators :=
  MkCollaborators (fun _ _ => true) (fun _ _ => true) (fun _ => true)
    (fun _ => "01.01.2024"%string) (Ok tt).

(** Collaborators under which no role may mutate. *)
Definition read_only : Collaborators :=
  MkCollaborators (fun _ _ => true) (fun _ _ => true) (fun _ => false)
    (fun _ => "01.01.2024"%string) (Raise InvalidDate).

(** A user with a supervisor, and a user without one. *)
Definition subordinate : User.t := User.Build 7%positive "subordinate" (Some 3%positive).
Definition supervisor : User.t := User.Build 3%positive "supervisor" None.

(** Plan 10 (IN_PROGRESS) with Task 1 DONE and Task 2 IN_PROGRESS. *)
Definition one_task_left : AsyncSession :=
  MkSession
    (MkDB {[ 1 := Task.Build 1 10 TaskStatus.DONE None;
             2 := Task.Build 2 10 TaskStatus.IN_PROGRESS None ]}
          {[ 10 := Plan.Build 10 PlanStatus.IN_PROGRESS None ]}
          ∅)
    [].

(** Plan 10 (DONE, no expiry) whose only Task 1 is DONE. *)
Definition completed_plan : AsyncSession :=
  MkSession
    (MkDB {[ 1 := Task.Build 1 10 TaskStatus.DONE None ]}
          {[ 10 := Plan.Build 10 PlanStatus.DONE None ]}
          ∅)
    [].

(** Plan 10 (CREATED, expiring on day 300) with Task 1 CREATED, expiring on
    day 200. *)
Definition untouched_plan : AsyncSession :=
  MkSession
    (MkDB {[ 1 := Task.Build 1 10 TaskStatus.CREATED (Some 200) ]}
          {[ 10 := Plan.Build 10 PlanStatus.CREATED (Some 300) ]}
          ∅)
    [].

(** Plan 10 marked DONE although its Task 1 is still CREATED. *)
Definition done_plan_with_new_task : AsyncSession :=
  MkSession
    (MkDB {[ 1 := Task.Build 1 10 TaskStatus.CREATED None ]}
          {[ 10 := Plan.Build 10 PlanStatus.DONE None ]}
          ∅)
    [].

(** ** Referential shape of the tables *)

(** Every Task points to a Plan that exists. *)
Definition tasks_have_plans (d : DB) : Prop :=
  map_Forall (fun _ task => is_Some (plans d !! Task.plan_id task)) (tasks d).

#[global] Instance tasks_have_plans_dec (d : DB) : Decision (tasks_have_plans d).
Proof. unfold tasks_have_plans. apply _. Defined.

(** Every Comment points to a Task that exists. *)
Definition comments_have_tasks (d : DB) : Prop :=
  map_Forall (fun _ comment => is_Some (tasks d !! Comment.task_id comment))
    (comments d).

#[global] Instance comments_have_tasks_dec (d : DB) : Decision (comments_have_tasks d).
Proof. unfold comments_have_tasks. apply _. Defined.

(** ** Notifications: [app/db/crud/notification.py] *)

(** Modelled from the spec: [schemas.notification.Notification] is not among
    these sources.  A row has the two columns the query of [make_read]
    names, [recipient_id] and [is_read], and the rest of its content; its
    [id] is the key it is stored under. *)
Module Notification.
Record t := Build {
  recipient_id : USER_PK_TYPE;
  is_read : bool;
  payload : string
}.
End Notification.

(** The session as [make_read] uses it: the rows as the open transaction
    sees them, the rows as they are committed, and the lines the logger has
    written at debug level. *)
Record NotificationSession := MkNotificationSession {
  in_transaction : gmap Z Notification.t;
  committed : gmap Z Notification.t;
  debug_lines : list (USER_PK_TYPE * list PK_TYPE)
}.

(** [update(model).where(model.recipient_id == r).filter(model.id.in_(ids))
    .values({'is_read': v})] *)
Record UpdateIsRead := MkUpdateIsRead {
  where_recipient_id : USER_PK_TYPE;
  where_id_in : list PK_TYPE;
  values_is_read : bool
}.

Definition query_matches (q : UpdateIsRead) (key : PK_TYPE) (n : Notification.t) : bool :=
  bool_decide (Notification.recipient_id n = where_recipient_id q)
  && bool_decide (key ∈ where_id_in q).

(** [session.execute(query)]: every row that satisfies both conditions takes
    the value; the write is seen by the transaction only. *)
Definition session_execute (q : UpdateIsRead) (s : NotificationSession)
  : NotificationSession :=
  MkNotificationSession
    (map_imap (fun key n =>
       Some (if query_matches q key n
             then Notification.Build (Notification.recipient_id n)
                    (values_is_read q) (Notification.payload n)
             else n))
       (in_transaction s))
    (committed s)
    (debug_lines s).

(** [session.commit()]: what the transaction sees becomes what is stored. *)
Definition session_commit (s : NotificationSession) : NotificationSession :=
  MkNotificationSession (in_transaction s) (in_transaction s) (debug_lines s).

(** [self.logger.debug(f'MAKE_READ: recipient_id=..., ids=...')] *)
Definition logger_debug (recipient_id : USER_PK_TYPE) (ids : list PK_TYPE)
    (s : NotificationSession) : NotificationSession :=
  MkNotificationSession (in_transaction s) (committed s)
    (debug_lines s ++ [(recipient_id, ids)]).

(** [CRUDNotification.make_read] *)
Definition make_read (recipient_id : USER_PK_TYPE) (notification_ids : list PK_TYPE)
    (s : NotificationSession) : NotificationSession :=
  let s := logger_debug recipient_id notification_ids s in
  let query := MkUpdateIsRead recipient_id notification_ids true in
  let s := session_execute query s in
  session_commit s.

(** A notification once it has been read. *)
Definition marked_read (n : Notification.t) : Notification.t :=
  Notification.Build (Notification.recipient_id n) true (Notification.payload n).

(** Three notifications: 1 and 2 for user 7, 3 for user 3; notification 2 has
    been read in the open transaction but that is not committed yet. *)
Definition inbox : NotificationSession :=
  MkNotificationSession
    {[ 1 := Notification.Build 7%positive false "plan assigned";
       2 := Notification.Build 7%positive true "task created";
       3 := Notification.Build 3%positive false "task done" ]}
    {[ 1 := Notification.Build 7%positive false "plan assigned";
       2 := Notification.Build 7%positive false "task created";
       3 := Notification.Build 3%positive false "task done" ]}
    [].

(** * Properties *)

(** Unfolds a handler down to the reads and writes of the session. *)
Ltac run :=
  unfold serve, outcome, session_after, get_task, get_tasks, create_task,
    update_task, delete_task, create_task_validators, update_task_validators,
    delete_task_validators, check_task_and_user_access,
    check_plan_and_user_access, check_role, check_plan_tasks_expired_date,
    check_new_date_gt_current, task_crud_update, getattr_plan_id,
    respond_with_task,
    task_crud_get_all, task_crud_create, task_crud_delete, comment_crud_create,
    plan_crud_update, bind, await, ret, raise, log, read_db, write_db in *;
  simpl in *.

(** Splits on the first lookup, access decision or comparison that the goal
    still branches on. *)
Ltac branch :=
  match goal with
  | |- context [match ?m !! ?k with _ => _ end] =>
      let E := fresh "E" in destruct (m !! k) eqn:E; simpl in *
  | |- context [if ?b then _ else _] =>
      let E := fresh "E" in destruct b eqn:E; simpl in *
  | |- context [match ?o with Some _ => _ | None => _ end] =>
      let E := fresh "E" in destruct o eqn:E; simpl in *
  | |- context [new_date_for_undated_task ?e] =>
      let E := fresh "E" in
      destruct (new_date_for_undated_task e) as [[]|?] eqn:E; simpl in *
  end.

Section Properties.
Context (env : Collaborators).

(** ** What each store call does to a lookup *)

Lemma status_eqb_created (st : TaskStatus.t) :
  TaskStatus.eqb st TaskStatus.CREATED = true ↔ st = TaskStatus.CREATED.
Proof. destruct st; simpl; split; congruence. Qed.

Lemma status_eqb_done (st : TaskStatus.t) :
  TaskStatus.eqb st TaskStatus.DONE = true ↔ st = TaskStatus.DONE.
Proof. destruct st; simpl; split; congruence. Qed.

Lemma plan_status_eqb_done (st : PlanStatus.t) :
  PlanStatus.eqb st PlanStatus.DONE = true ↔ st = PlanStatus.DONE.
Proof. destruct st; simpl; split; congruence. Qed.

(** No row is equal to a function object, so counting a lambda in a sequence
    of rows finds nothing. *)
Lemma list_count_lambda (rows : list Task.t) (f : Task.t → bool) :
  list_count (PyRow <$> rows) (PyLambda f) = 0%nat.
Proof.
  unfold list_count. induction rows as [|t rows IH]; [done|].
  rewrite fmap_cons, filter_cons_False; [exact IH|]. simpl. congruence.
Qed.

(** ** What each handler does to the tables *)

(** [update_task] writes no Plan: the count it tests is always zero. *)
Lemma update_task_plans task_id task_patch user s :
  plans (db (session_after (update_task env task_id task_patch user) s))
  = plans (db s).
Proof.
  run. repeat (branch; try done).
  all: rewrite ?list_count_lambda in *; simpl in *; try done.
Qed.

(** [create_task] writes no Plan: the update it builds is never run. *)
Lemma create_task_plans today plan_id task_create user s :
  plans (db (session_after (create_task env today plan_id task_create user) s))
  = plans (db s).
Proof. run. repeat (branch; try done). Qed.

Lemma delete_task_plans task_id user s :
  plans (db (session_after (delete_task env task_id user) s)) = plans (db s).
Proof. run. repeat (branch; try done). Qed.

(** [get_task] either leaves the database as it is, or it has found a
    CREATED Task, moved it to IN_PROGRESS, and stopped at [task.plan_id]
    before any Plan is written. *)
Lemma get_task_db task_id user s :
  let s' := session_after (get_task env task_id user) s in
  db s' = db s
  ∨ ∃ task,
      tasks (db s) !! task_id = Some task
      ∧ Task.status task = TaskStatus.CREATED
      ∧ db s' = set_tasks (db s) (<[task_id := viewed task]> (tasks (db s)))
      ∧ outcome (get_task env task_id user) s = Raise AttributeError.
Proof.
  run. destruct (tasks (db s) !! task_id) as [task|] eqn:Ht; simpl; [|by left].
  destruct (may_access_task env (User.id user) task_id); simpl; [|by left].
  destruct (TaskStatus.eqb (Task.status task) TaskStatus.CREATED) eqn:Hst;
    simpl; [|by left].
  destruct (User.supervisor_id user); simpl; [|by left].
  rewrite Ht. simpl. right. exists task.
  apply status_eqb_created in Hst. auto.
Qed.

(** [get_task] writes no Plan: the write is behind [task.plan_id]. *)
Lemma get_task_plans task_id user s :
  plans (db (session_after (get_task env task_id user) s)) = plans (db s).
Proof.
  destruct (get_task_db task_id user s) as [-> | (task & _ & _ & -> & _)]; done.
Qed.

(** [create_task] either leaves the database as it is, or it has added one
    CREATED Task under an existing Plan, with a key no Task had. *)
Lemma create_task_db today plan_id task_create user s :
  let s' := session_after (create_task env today plan_id task_create user) s in
  db s' = db s
  ∨ ∃ plan task,
      plans (db s) !! plan_id = Some plan
      ∧ tasks (db s) !! Task.id task = None
      ∧ Task.plan_id task = plan_id
      ∧ Task.status task = TaskStatus.CREATED
      ∧ Task.expires_at task = TaskCreate.expires_at task_create
      ∧ outcome (create_task env today plan_id task_create user) s = Ok task
      ∧ tasks (db s') = <[Task.id task := task]> (tasks (db s))
      ∧ plans (db s') = plans (db s).
Proof.
  assert (Hfresh : tasks (db s) !! fresh (dom (tasks (db s))) = None).
  { apply not_elem_of_dom, is_fresh. }
  pose (task := Task.Build (fresh (dom (tasks (db s)))) plan_id
                  TaskStatus.CREATED (TaskCreate.expires_at task_create)).
  run. destruct (plans (db s) !! plan_id) as [plan|] eqn:Hp; simpl; [|by left].
  destruct (may_access_plan env (User.id user) plan_id); simpl; [|by left].
  destruct (role_permits_mutation env (User.role user)); simpl; [|by left].
  destruct (TaskCreate.expires_at task_create) as [d|] eqn:Hd; simpl.
  - destruct (bool_decide (d ≤ today)); simpl; [by left|].
    destruct (Plan.expires_at plan) as [pe|]; simpl.
    + destruct (bool_decide (pe < d)); simpl; [by left|].
      right. exists plan, task. subst task. simpl.
      destruct (PlanStatus.eqb (Plan.status plan) PlanStatus.DONE); simpl;
        repeat split; done.
    + right. exists plan, task. subst task. simpl.
      destruct (PlanStatus.eqb (Plan.status plan) PlanStatus.DONE); simpl;
        repeat split; done.
  - right. exists plan, task. subst task. simpl.
    destruct (PlanStatus.eqb (Plan.status plan) PlanStatus.DONE); simpl;
      repeat split; done.
Qed.

(** [update_task] either leaves the database as it is, or it has applied the
    patch to the Task. *)
Lemma update_task_db task_id task_patch user s :
  let s' := session_after (update_task env task_id task_patch user) s in
  db s' = db s
  ∨ ∃ task,
      tasks (db s) !! task_id = Some task
      ∧ tasks (db s') = <[task_id := apply_task_values task_patch task]> (tasks (db s))
      ∧ plans (db s') = plans (db s).
Proof.
  run. destruct (tasks (db s) !! task_id) as [task|] eqn:Ht; simpl; [|by left].
  destruct (may_access_task env (User.id user) task_id); simpl; [|by left].
  destruct (role_permits_mutation env (User.role user)); simpl; [|by left].
  destruct (TaskUpdate.expires_at task_patch) as [d|]; simpl.
  - destruct (Task.expires_at task) as [cur|]; simpl.
    + destruct (bool_decide (cur < d)); simpl; [|by left].
      rewrite Ht. simpl. right. exists task.
      destruct (bool_decide _); simpl; [rewrite list_count_lambda|]; simpl; auto.
    + destruct (new_date_for_undated_task env) as [[]|e0]; simpl; [|by left].
      rewrite Ht. simpl. right. exists task.
      destruct (bool_decide _); simpl; [rewrite list_count_lambda|]; simpl; auto.
  - rewrite Ht. simpl. right. exists task.
    destruct (bool_decide _); simpl; [rewrite list_count_lambda|]; simpl; auto.
Qed.

(** [delete_task] either leaves the database as it is, or it has removed the
    Task. *)
Lemma delete_task_db task_id user s :
  let s' := session_after (delete_task env task_id user) s in
  db s' = db s
  ∨ tasks (db s') = delete task_id (tasks (db s)) ∧ plans (db s') = plans (db s).
Proof.
  run. repeat (branch; auto).
Qed.

(** ** Reading a Task *)

(** C5.  A Get Task request whose guard does not hold — the user has no
    supervisor, or the Task is not CREATED — leaves the database as it was,
    so the status of the Task and of its Plan are unchanged, and what it
    returns is the stored Task.  A second Get Task request for the same Task
    by the same user, supervised or not, changes nothing. *)
Theorem get_task_without_first_view task_id user s :
  (User.supervisor_id user = None
   ∨ (∀ task, tasks (db s) !! task_id = Some task →
              Task.status task ≠ TaskStatus.CREATED) →
   db (session_after (get_task env task_id user) s) = db s
   ∧ ∀ task, outcome (get_task env task_id user) s = Ok task →
             tasks (db s) !! task_id = Some task)
  ∧ db (session_after (get_task env task_id user)
          (session_after (get_task env task_id user) s))
    = db (session_after (get_task env task_id user) s).
Proof.
  split.
  - intros Hguard. run.
    destruct (tasks (db s) !! task_id) as [task|] eqn:Ht; simpl; [|done].
    destruct (may_access_task env (User.id user) task_id); simpl; [|done].
    destruct (TaskStatus.eqb (Task.status task) TaskStatus.CREATED) eqn:Hst;
      simpl.
    + apply status_eqb_created in Hst.
      destruct Hguard as [-> | Hne]; simpl.
      * split; [done|]. intros ? [= <-]. done.
      * exfalso. by apply (Hne task).
    + split; [done|]. intros ? [= <-]. done.
  - run.
    destruct (tasks (db s) !! task_id) as [task|] eqn:Ht; simpl;
      [|rewrite Ht; done].
    destruct (may_access_task env (User.id user) task_id) eqn:Hacc; simpl;
      [|rewrite Ht; done].
    destruct (TaskStatus.eqb (Task.status task) TaskStatus.CREATED) eqn:Hst;
      simpl; [|rewrite Ht; simpl; rewrite Hst; done].
    destruct (User.supervisor_id user) eqn:Hsup; simpl;
      [|rewrite Ht; simpl; rewrite Hst; done].
    rewrite Ht. simpl. rewrite lookup_insert_eq. done.
Qed.

(** ** Validation *)

(** C6.  In each of create task, update task and delete task: when a
    validator of the use case fails (access check, role check or temporal
    check), the request ends with the error of that validator, the Task,
    Plan and Comment tables are as they were before the request, and no
    store was asked to write. *)
Theorem failed_validation_aborts_without_mutation s e :
  (∀ today plan_id task_create user,
     outcome (create_task_validators env today plan_id task_create user) s = Raise e →
     let request := create_task env today plan_id task_create user in
     outcome request s = Raise e
     ∧ db (session_after request s) = db s
     ∧ List.filter is_write (calls (session_after request s))
       = List.filter is_write (calls s))
  ∧ (∀ task_id task_patch user,
       outcome (update_task_validators env task_id task_patch user) s = Raise e →
       let request := update_task env task_id task_patch user in
       outcome request s = Raise e
       ∧ db (session_after request s) = db s
       ∧ List.filter is_write (calls (session_after request s))
         = List.filter is_write (calls s))
  ∧ (∀ task_id user,
       outcome (delete_task_validators env task_id user) s = Raise e →
       let request := delete_task env task_id user in
       outcome request s = Raise e
       ∧ db (session_after request s) = db s
       ∧ List.filter is_write (calls (session_after request s))
         = List.filter is_write (calls s)).
Proof.
  split; [|split].
  - intros today plan_id task_create user. run.
    repeat (branch; try done);
      intros [= <-]; rewrite ?List.filter_app; simpl; rewrite ?app_nil_r; done.
  - intros task_id task_patch user. run.
    repeat (branch; try done);
      intros [= <-]; rewrite ?List.filter_app; simpl; rewrite ?app_nil_r; done.
  - intros task_id user. run.
    repeat (branch; try done);
      intros [= <-]; rewrite ?List.filter_app; simpl; rewrite ?app_nil_r; done.
Qed.

(** C7.  A Create Task request that has passed the access and role checks
    and carries an expiry fails with InvalidDate exactly when the expiry is
    not strictly after the current date, or the Plan has an expiry and the
    expiry of the Task exceeds it; nothing is written then.  A Create Task
    request that carries no expiry makes no call of a temporal validator. *)
Theorem create_task_expiry_validation today plan_id task_create user s :
  (∀ plan expires_at,
     plans (db s) !! plan_id = Some plan →
     may_access_plan env (User.id user) plan_id = true →
     role_permits_mutation env (User.role user) = true →
     TaskCreate.expires_at task_create = Some expires_at →
     let request := create_task env today plan_id task_create user in
     (expires_at ≤ today
      ∨ (∃ plan_expiry, Plan.expires_at plan = Some plan_expiry
                        ∧ plan_expiry < expires_at)
      ↔ outcome request s = Raise InvalidDate)
     ∧ (outcome request s = Raise InvalidDate →
        db (session_after request s) = db s))
  ∧ (TaskCreate.expires_at task_create = None →
     let request := create_task env today plan_id task_create user in
     List.filter is_temporal (calls (session_after request s))
     = List.filter is_temporal (calls s)
     ∧ outcome request s ≠ Raise InvalidDate).
Proof.
  split.
  - intros plan expires_at Hp Hacc Hrole Hd. run.
    rewrite Hp, Hacc, Hrole, Hd. simpl.
    destruct (bool_decide (expires_at ≤ today)) eqn:Hpast; simpl.
    { apply bool_decide_eq_true in Hpast. split; [split|]; auto. }
    apply bool_decide_eq_false in Hpast.
    destruct (Plan.expires_at plan) as [plan_expiry|] eqn:Hpe; simpl.
    + destruct (bool_decide (plan_expiry < expires_at)) eqn:Hover; simpl.
      { apply bool_decide_eq_true in Hover. split; [split|]; eauto. }
      apply bool_decide_eq_false in Hover.
      destruct (PlanStatus.eqb (Plan.status plan) PlanStatus.DONE); simpl.
      all: split; [split|]; try done.
      all: intros [? | (pe & [= <-] & ?)]; lia.
    + destruct (PlanStatus.eqb (Plan.status plan) PlanStatus.DONE); simpl.
      all: split; [split|]; try done.
      all: intros [? | (pe & [=] & ?)]; lia.
  - intros Hd. run. rewrite Hd.
    repeat (branch; try done);
      rewrite ?List.filter_app; simpl; rewrite ?app_nil_r; done.
Qed.

(** C8.  An Update Task request that has passed the access and role checks
    and supplies a new expiry for a Task that has one: it fails with
    InvalidDate, and writes nothing, when the new expiry is not strictly
    after the current expiry of the Task; when the new expiry is strictly
    later the request succeeds, and the Task is stored and returned with the
    new expiry. *)
Theorem update_task_expiry_validation task_id task_patch user s task current expires_at :
  tasks (db s) !! task_id = Some task →
  may_access_task env (User.id user) task_id = true →
  role_permits_mutation env (User.role user) = true →
  Task.expires_at task = Some current →
  TaskUpdate.expires_at task_patch = Some expires_at →
  let request := update_task env task_id task_patch user in
  (expires_at ≤ current →
   outcome request s = Raise InvalidDate
   ∧ db (session_after request s) = db s)
  ∧ (current < expires_at →
     ∃ task', outcome request s = Ok task'
              ∧ tasks (db (session_after request s)) !! task_id = Some task'
              ∧ Task.expires_at task' = Some expires_at).
Proof.
  intros Ht Hacc Hrole Hcur Hd. run.
  rewrite Ht, Hacc, Hrole, Hd, Hcur. simpl. split.
  - intros Hle. rewrite bool_decide_eq_false_2 by lia. done.
  - intros Hlt. rewrite bool_decide_eq_true_2 by lia. simpl.
    rewrite Ht. simpl. exists (apply_task_values task_patch task).
    destruct (bool_decide (TaskUpdate.status task_patch = Some TaskStatus.DONE));
      simpl; [rewrite list_count_lambda; simpl|];
      rewrite lookup_insert_eq; unfold apply_task_values; rewrite Hd; done.
Qed.

(** ** Deleting a Task *)

(** C9.  A Delete Task request never writes a Plan: every Plan has after the
    request the status it had before, so a Plan that was not DONE is not
    DONE afterwards, whatever the status of the Tasks that remain.  A request
    that passes validation removes the Task and leaves every other Task as
    it was. *)
Theorem delete_task_never_touches_plans task_id user s :
  let s' := session_after (delete_task env task_id user) s in
  plans (db s') = plans (db s)
  ∧ (∀ plan_id plan,
       plans (db s) !! plan_id = Some plan →
       Plan.status plan ≠ PlanStatus.DONE →
       ∃ plan', plans (db s') !! plan_id = Some plan'
                ∧ Plan.status plan' ≠ PlanStatus.DONE)
  ∧ List.filter (fun c => match c with Call_plan_update _ _ => true | _ => false end)
      (calls s')
    = List.filter (fun c => match c with Call_plan_update _ _ => true | _ => false end)
        (calls s)
  ∧ (∀ task,
       tasks (db s) !! task_id = Some task →
       may_access_task env (User.id user) task_id = true →
       role_permits_mutation env (User.role user) = true →
       outcome (delete_task env task_id user) s = Ok tt
       ∧ tasks (db s') = delete task_id (tasks (db s))
       ∧ tasks (db s') !! task_id = None
       ∧ ∀ other, other ≠ task_id →
                  tasks (db s') !! other = tasks (db s) !! other).
Proof.
  intros s'. pose proof (delete_task_plans task_id user s) as Hplans.
  fold s' in Hplans. split; [done|]. split; [|split].
  - intros plan_id plan Hp Hst. exists plan. by rewrite Hplans.
  - subst s'. run.
    repeat (branch; try done);
      rewrite ?List.filter_app; simpl; rewrite ?app_nil_r; done.
  - intros task Ht Hacc Hrole. subst s'. clear Hplans. run.
    rewrite Ht, Hacc, Hrole. simpl. repeat split.
    + apply lookup_delete_eq.
    + intros other Hne. by apply lookup_delete_ne.
Qed.

(** ** The invariant of DONE Plans *)

Lemma plan_done_invariant_lookup (d : DB) :
  plan_done_invariant d ↔
  ∀ plan_id plan task_id task,
    plans d !! plan_id = Some plan →
    Plan.status plan = PlanStatus.DONE →
    tasks d !! task_id = Some task →
    Task.plan_id task = plan_id →
    Task.status task = TaskStatus.DONE.
Proof.
  unfold plan_done_invariant, map_Forall. split.
  - intros H plan_id plan task_id task Hp Hdone Ht Hpid.
    exact (H plan_id plan Hp Hdone task_id task Ht Hpid).
  - intros H plan_id plan Hp Hdone task_id task Ht Hpid.
    exact (H plan_id plan task_id task Hp Hdone Ht Hpid).
Qed.

Lemma get_task_keeps_invariant task_id user s :
  plan_done_invariant (db s) →
  plan_done_invariant (db (session_after (get_task env task_id user) s)).
Proof.
  intros Hinv.
  destruct (get_task_db task_id user s)
    as [-> | (task & Ht & Hst & -> & _)]; [done|].
  rewrite plan_done_invariant_lookup in Hinv.
  apply plan_done_invariant_lookup. simpl.
  intros pid plan' tid task' Hp' Hdone Ht' Hpid.
  destruct (decide (tid = task_id)) as [->|Hne].
  - rewrite lookup_insert_eq in Ht'. injection Ht' as <-. simpl in Hpid.
    specialize (Hinv pid plan' task_id task Hp' Hdone Ht Hpid). congruence.
  - rewrite lookup_insert_ne in Ht' by done.
    exact (Hinv pid plan' tid task' Hp' Hdone Ht' Hpid).
Qed.

Lemma create_task_keeps_invariant today plan_id task_create user s :
  plan_done_invariant (db s) →
  keeps_done_plans_closed (CreateTask today plan_id task_create user) (db s) = true →
  plan_done_invariant
    (db (session_after (create_task env today plan_id task_create user) s)).
Proof.
  intros Hinv Hok.
  destruct (create_task_db today plan_id task_create user s)
    as [-> | (plan & task & Hp & Hnew & Hpid & _ & _ & _ & Htasks & Hplans)];
    [done|].
  rewrite plan_done_invariant_lookup in Hinv.
  apply plan_done_invariant_lookup.
  intros pid plan' tid task' Hp' Hdone Ht' Hpid'.
  rewrite Htasks in Ht'. rewrite Hplans in Hp'.
  destruct (decide (tid = Task.id task)) as [->|Hne].
  - rewrite lookup_insert_eq in Ht'. injection Ht' as <-.
    simpl in Hok. rewrite <- Hpid, Hpid', Hp' in Hok.
    apply negb_true_iff in Hok.
    apply plan_status_eqb_done in Hdone. congruence.
  - rewrite lookup_insert_ne in Ht' by done.
    exact (Hinv pid plan' tid task' Hp' Hdone Ht' Hpid').
Qed.

Lemma update_task_keeps_invariant task_id task_patch user s :
  plan_done_invariant (db s) →
  keeps_done_plans_closed (UpdateTask task_id task_patch user) (db s) = true →
  plan_done_invariant (db (session_after (update_task env task_id task_patch user) s)).
Proof.
  intros Hinv Hok.
  destruct (update_task_db task_id task_patch user s)
    as [-> | (task & Ht & Htasks & Hplans)]; [done|].
  rewrite plan_done_invariant_lookup in Hinv.
  apply plan_done_invariant_lookup.
  intros pid plan' tid task' Hp' Hdone Ht' Hpid'.
  rewrite Htasks in Ht'. rewrite Hplans in Hp'.
  destruct (decide (tid = task_id)) as [->|Hne].
  - rewrite lookup_insert_eq in Ht'. injection Ht' as <-.
    simpl in Hpid'. simpl in Hok. rewrite Ht in Hok.
    unfold apply_task_values. simpl.
    destruct (TaskUpdate.status task_patch) as [st|] eqn:Hst; simpl.
    + rewrite Hpid', Hp' in Hok. apply orb_true_iff in Hok as [Hok|Hok].
      * by apply status_eqb_done.
      * apply negb_true_iff in Hok. apply plan_status_eqb_done in Hdone.
        congruence.
    + exact (Hinv pid plan' task_id task Hp' Hdone Ht Hpid').
  - rewrite lookup_insert_ne in Ht' by done.
    exact (Hinv pid plan' tid task' Hp' Hdone Ht' Hpid').
Qed.

Lemma delete_task_keeps_invariant task_id user s :
  plan_done_invariant (db s) →
  plan_done_invariant (db (session_after (delete_task env task_id user) s)).
Proof.
  intros Hinv.
  destruct (delete_task_db task_id user s) as [-> | [Htasks Hplans]]; [done|].
  rewrite plan_done_invariant_lookup in Hinv.
  apply plan_done_invariant_lookup.
  intros pid plan' tid task' Hp' Hdone Ht' Hpid'.
  rewrite Htasks in Ht'. rewrite Hplans in Hp'.
  apply lookup_delete_Some in Ht' as [_ Ht'].
  exact (Hinv pid plan' tid task' Hp' Hdone Ht' Hpid').
Qed.

Lemma serve_keeps_invariant (r : Request) s :
  plan_done_invariant (db s) →
  keeps_done_plans_closed r (db s) = true →
  plan_done_invariant (db (serve env r s)).
Proof.
  destruct r; unfold serve; intros Hinv Hok.
  - by apply get_task_keeps_invariant.
  - by apply create_task_keeps_invariant.
  - by apply update_task_keeps_invariant.
  - by apply delete_task_keeps_invariant.
Qed.

(** C4, as the handlers keep it.  Over every sequence of get task, create
    task, update task and delete task requests in which no Task is created
    under a Plan that is DONE and no update gives a status other than DONE to
    a Task of a Plan that is DONE, from any state in which no DONE Plan has a
    Task that is not DONE: no DONE Plan has a Task that is not DONE at the
    end of the sequence. *)
Theorem plan_done_invariant_preserved (rs : list Request) s :
  plan_done_invariant (db s) →
  all_keep_done_plans_closed env rs s = true →
  plan_done_invariant (db (serve_all env rs s)).
Proof.
  revert s. induction rs as [|r rs IH]; intros s Hinv Hok; [done|].
  simpl in Hok. apply andb_true_iff in Hok as [Hr Hrs].
  unfold serve_all. simpl. apply IH; [|done].
  by apply serve_keeps_invariant.
Qed.

End Properties.

(** * The scenarios of the specification, run on the handlers *)

(** C1.  Plan 10 has Task 1 (DONE) and Task 2 (IN_PROGRESS), and Task 2 is
    updated to DONE.  The request succeeds, both Tasks are then DONE and no
    Task of the Plan is left that is not DONE, yet the Plan is stored with
    the status it had, IN_PROGRESS, not DONE. *)
Theorem update_last_task_to_done_leaves_plan_open :
  let request :=
    update_task permissive 2 (TaskUpdate.Build (Some TaskStatus.DONE) None) supervisor in
  let s' := session_after request one_task_left in
  outcome request one_task_left = Ok (Task.Build 2 10 TaskStatus.DONE None)
  ∧ tasks (db s') !! 1 = Some (Task.Build 1 10 TaskStatus.DONE None)
  ∧ tasks (db s') !! 2 = Some (Task.Build 2 10 TaskStatus.DONE None)
  ∧ (∃ siblings, outcome (task_crud_get_all 10) s' = Ok siblings
                 ∧ filter (fun t => Task.status t ≠ TaskStatus.DONE) siblings = [])
  ∧ plans (db s') !! 10 = Some (Plan.Build 10 PlanStatus.IN_PROGRESS None).
Proof.
  repeat split; try (vm_compute; reflexivity).
  eexists. split; vm_compute; reflexivity.
Qed.

(** C2.  Plan 10 is DONE and has no expiry, and a Task is created under it.
    The request succeeds and the new Task is stored with status CREATED, yet
    the Plan is still stored with status DONE, not IN_PROGRESS. *)
Theorem create_task_under_done_plan_leaves_plan_done :
  let request := create_task permissive 100 10 (TaskCreate.Build None) supervisor in
  let s' := session_after request completed_plan in
  ∃ task,
    outcome request completed_plan = Ok task
    ∧ Task.status task = TaskStatus.CREATED
    ∧ Task.plan_id task = 10
    ∧ tasks (db s') !! Task.id task = Some task
    ∧ plans (db completed_plan) !! 10 = Some (Plan.Build 10 PlanStatus.DONE None)
    ∧ plans (db s') !! 10 = Some (Plan.Build 10 PlanStatus.DONE None).
Proof.
  eexists. repeat split; vm_compute; reflexivity.
Qed.

(** C3.  A subordinate reads Task 1, which is CREATED, under Plan 10, which
    is CREATED.  The Task is stored with status IN_PROGRESS; then
    [task.plan_id] is read off the sequence that [task_crud.update] has
    returned, the request ends in AttributeError, no update of a Plan is
    called, the Plan is still CREATED and no Task is returned. *)
Theorem get_task_first_view_stops_at_plan_id :
  let request := get_task permissive 1 subordinate in
  let s' := session_after request untouched_plan in
  outcome request untouched_plan = Raise AttributeError
  ∧ tasks (db s') !! 1 = Some (Task.Build 1 10 TaskStatus.IN_PROGRESS (Some 200))
  ∧ plans (db s') !! 10 = Some (Plan.Build 10 PlanStatus.CREATED (Some 300))
  ∧ calls s' = [Call_check_task_and_user_access 1 7%positive;
                Call_task_update 1
                  (TaskUpdate.Build (Some TaskStatus.IN_PROGRESS) None)].
Proof.
  repeat split; vm_compute; reflexivity.
Qed.

(** C10.  A subordinate reads Task 1, which is CREATED, under Plan 10, which
    is DONE.  The request ends in AttributeError at [task.plan_id], before
    the update of the Plan is called: the Plan is still DONE, not
    IN_PROGRESS. *)
Theorem get_task_leaves_done_plan_done :
  let request := get_task permissive 1 subordinate in
  let s' := session_after request done_plan_with_new_task in
  outcome request done_plan_with_new_task = Raise AttributeError
  ∧ plans (db done_plan_with_new_task) !! 10
    = Some (Plan.Build 10 PlanStatus.DONE None)
  ∧ plans (db s') !! 10 = Some (Plan.Build 10 PlanStatus.DONE None)
  ∧ List.filter (fun c => match c with Call_plan_update _ _ => true | _ => false end)
      (calls s') = [].
Proof.
  repeat split; vm_compute; reflexivity.
Qed.

(** C4 as stated fails: Plan 10 is DONE and its only Task is DONE, so the
    invariant holds; after an update that sets the Task to IN_PROGRESS the
    Plan is still DONE and has a Task that is not. *)
Lemma plan_done_invariant_broken_by_reopening :
  plan_done_invariant (db completed_plan)
  ∧ ¬ plan_done_invariant
        (db (serve_all permissive
               [UpdateTask 1 (TaskUpdate.Build (Some TaskStatus.IN_PROGRESS) None)
                  supervisor]
               completed_plan)).
Proof.
  split.
  - apply (bool_decide_unpack _). vm_compute. exact I.
  - intros Hinv. apply (bool_decide_pack _) in Hinv. vm_compute in Hinv.
    exact Hinv.
Qed.

(** * The theorems at concrete requests *)

(** A user without a supervisor opens the CREATED Task 1. *)
Lemma get_task_without_first_view_witness :
  User.supervisor_id supervisor = None
  ∧ db (session_after (get_task permissive 1 supervisor) untouched_plan)
    = db untouched_plan.
Proof.
  split; [reflexivity|].
  apply (proj1 (get_task_without_first_view permissive 1 supervisor untouched_plan)).
  left. reflexivity.
Defined.

(** Under collaborators that let no role mutate, a Delete Task request for
    Task 1 ends with Forbidden and the tables as they were. *)
Lemma failed_validation_aborts_without_mutation_witness :
  outcome (delete_task_validators read_only 1 subordinate) untouched_plan = Raise Forbidden
  ∧ outcome (delete_task read_only 1 subordinate) untouched_plan = Raise Forbidden
  ∧ db (session_after (delete_task read_only 1 subordinate) untouched_plan)
    = db untouched_plan.
Proof.
  split; [reflexivity|].
  pose proof (proj2 (proj2 (failed_validation_aborts_without_mutation read_only
                              untouched_plan Forbidden)) 1 subordinate) as H.
  simpl in H. specialize (H eq_refl). destruct H as (Hout & Hdb & _).
  split; [exact Hout | exact Hdb].
Defined.

(** On day 100, a Task that would expire on day 50 is refused. *)
Lemma create_task_expiry_validation_witness :
  (plans (db untouched_plan) !! 10 = Some (Plan.Build 10 PlanStatus.CREATED (Some 300))
   ∧ 50 ≤ 100)
  ∧ outcome (create_task permissive 100 10 (TaskCreate.Build (Some 50)) supervisor)
      untouched_plan
    = Raise InvalidDate.
Proof.
  split; [split; [reflexivity | lia]|].
  apply (proj1 (proj1 (create_task_expiry_validation permissive 100 10
                         (TaskCreate.Build (Some 50)) supervisor untouched_plan)
                  (Plan.Build 10 PlanStatus.CREATED (Some 300)) 50
                  eq_refl eq_refl eq_refl eq_refl)).
  left. lia.
Defined.

(** Task 1 expires on day 200; moving the expiry to day 150 is refused. *)
Lemma update_task_expiry_validation_witness :
  (tasks (db untouched_plan) !! 1 = Some (Task.Build 1 10 TaskStatus.CREATED (Some 200))
   ∧ 150 ≤ 200)
  ∧ outcome (update_task permissive 1 (TaskUpdate.Build None (Some 150)) supervisor)
      untouched_plan
    = Raise InvalidDate.
Proof.
  split; [split; [reflexivity | lia]|].
  apply (proj1 (update_task_expiry_validation permissive 1
                  (TaskUpdate.Build None (Some 150)) supervisor untouched_plan
                  (Task.Build 1 10 TaskStatus.CREATED (Some 200)) 200 150
                  eq_refl eq_refl eq_refl eq_refl eq_refl)).
  lia.
Defined.

(** Task 2 of Plan 10 is deleted while the Plan is IN_PROGRESS. *)
Lemma delete_task_never_touches_plans_witness :
  tasks (db one_task_left) !! 2 = Some (Task.Build 2 10 TaskStatus.IN_PROGRESS None)
  ∧ outcome (delete_task permissive 2 supervisor) one_task_left = Ok tt
  ∧ plans (db (session_after (delete_task permissive 2 supervisor) one_task_left))
    = plans (db one_task_left).
Proof.
  split; [reflexivity|].
  pose proof (delete_task_never_touches_plans permissive 2 supervisor one_task_left)
    as (Hplans & _ & _ & Hdel).
  destruct (Hdel (Task.Build 2 10 TaskStatus.IN_PROGRESS None) eq_refl eq_refl eq_refl)
    as (Hout & _).
  split; [exact Hout | exact Hplans].
Defined.

(** Plan 10 is DONE and its Task 1 is DONE.  Task 1 is set to DONE again
    and read by a subordinate, and the deletion of a Task 2, which does not
    exist, is asked for.  The Plan is DONE throughout, and its Task with
    it. *)
Lemma plan_done_invariant_preserved_witness :
  let requests :=
    [UpdateTask 1 (TaskUpdate.Build (Some TaskStatus.DONE) None) supervisor;
     GetTask 1 subordinate;
     DeleteTask 2 supervisor] in
  plan_done_invariant (db completed_plan)
  ∧ all_keep_done_plans_closed permissive requests completed_plan = true
  ∧ plans (db (serve_all permissive requests completed_plan)) !! 10
    = Some (Plan.Build 10 PlanStatus.DONE None)
  ∧ plan_done_invariant (db (serve_all permissive requests completed_plan)).
Proof.
  intros requests.
  assert (Hinv : plan_done_invariant (db completed_plan)).
  { apply (bool_decide_unpack _). vm_compute. exact I. }
  assert (Hok : all_keep_done_plans_closed permissive requests completed_plan = true).
  { vm_compute. reflexivity. }
  split; [exact Hinv|]. split; [exact Hok|]. split; [vm_compute; reflexivity|].
  exact (plan_done_invariant_preserved permissive requests completed_plan Hinv Hok).
Defined.

(** * Marking notifications as read *)

(** What the transaction sees under a key after [make_read]. *)
Lemma make_read_lookup recipient_id ids s key :
  in_transaction (make_read recipient_id ids s) !! key
  = (fun n =>
       if bool_decide (Notification.recipient_id n = recipient_id)
          && bool_decide (key ∈ ids)
       then marked_read n else n) <$> in_transaction s !! key.
Proof.
  unfold make_read, session_commit, session_execute, logger_debug. simpl.
  rewrite map_lookup_imap. destruct (in_transaction s !! key); reflexivity.
Qed.

(** X1.  Every notification of the recipient whose id is in the list is read
    after [make_read], with its recipient and content as they were. *)
Theorem make_read_marks_the_requested recipient_id ids s key n :
  in_transaction s !! key = Some n →
  Notification.recipient_id n = recipient_id →
  key ∈ ids →
  in_transaction (make_read recipient_id ids s) !! key = Some (marked_read n)
  ∧ committed (make_read recipient_id ids s) !! key = Some (marked_read n).
Proof.
  intros Hn Hr Hin.
  assert (in_transaction (make_read recipient_id ids s) !! key
          = Some (marked_read n)) as H.
  { rewrite make_read_lookup, Hn. simpl.
    rewrite !bool_decide_eq_true_2 by done. done. }
  split; [exact H|exact H].
Qed.

(** X2.  [make_read] leaves every notification of another recipient, and
    every notification whose id is not in the list, exactly as it was: a
    user cannot mark the notifications of somebody else by naming them. *)
Theorem make_read_leaves_the_others recipient_id ids s key n :
  in_transaction s !! key = Some n →
  Notification.recipient_id n ≠ recipient_id ∨ key ∉ ids →
  in_transaction (make_read recipient_id ids s) !! key = Some n.
Proof.
  intros Hn Hother. rewrite make_read_lookup, Hn. simpl.
  destruct Hother.
  - rewrite (bool_decide_eq_false_2 (_ = _)) by done. done.
  - rewrite (bool_decide_eq_false_2 (_ ∈ _)) by done.
    by rewrite andb_false_r.
Qed.

(** X3.  After [make_read] nothing is pending: what is committed is what the
    transaction sees, including what the session had changed before the
    call and not yet committed. *)
Theorem make_read_commits recipient_id ids s :
  committed (make_read recipient_id ids s)
  = in_transaction (make_read recipient_id ids s)
  ∧ ∀ key n, in_transaction s !! key = Some n →
             Notification.recipient_id n ≠ recipient_id →
             committed (make_read recipient_id ids s) !! key = Some n.
Proof.
  split; [reflexivity|].
  intros key n Hn Hne.
  change (in_transaction (make_read recipient_id ids s) !! key = Some n).
  rewrite make_read_lookup, Hn. simpl.
  rewrite (bool_decide_eq_false_2 (_ = _)) by done. done.
Qed.

(** X4.  [make_read] never creates or deletes a notification, never changes
    a recipient or a content, and never turns a read notification back into
    an unread one; an id in the list that no row has is passed over without
    an error. *)
Theorem make_read_only_sets_the_flag recipient_id ids s key :
  match in_transaction s !! key with
  | Some n =>
      ∃ n', in_transaction (make_read recipient_id ids s) !! key = Some n'
            ∧ Notification.recipient_id n' = Notification.recipient_id n
            ∧ Notification.payload n' = Notification.payload n
            ∧ (Notification.is_read n = true → Notification.is_read n' = true)
  | None => in_transaction (make_read recipient_id ids s) !! key = None
  end.
Proof.
  rewrite make_read_lookup.
  destruct (in_transaction s !! key) as [n|]; simpl; [|done].
  eexists. split; [reflexivity|].
  destruct (_ && _); simpl; auto.
Qed.

(** X5.  Marking the same notifications twice is the same as marking them
    once, and marking two lists one after the other is the same as marking
    their concatenation, in either order. *)
Theorem make_read_composes recipient_id ids1 ids2 s :
  in_transaction (make_read recipient_id ids1 (make_read recipient_id ids1 s))
  = in_transaction (make_read recipient_id ids1 s)
  ∧ in_transaction (make_read recipient_id ids2 (make_read recipient_id ids1 s))
    = in_transaction (make_read recipient_id (ids1 ++ ids2) s)
  ∧ in_transaction (make_read recipient_id ids2 (make_read recipient_id ids1 s))
    = in_transaction (make_read recipient_id ids1 (make_read recipient_id ids2 s)).
Proof.
  assert (Hstep : ∀ l1 l2 key,
    in_transaction (make_read recipient_id l2 (make_read recipient_id l1 s)) !! key
    = in_transaction (make_read recipient_id (l1 ++ l2) s) !! key).
  { intros l1 l2 key. rewrite !make_read_lookup.
    destruct (in_transaction s !! key) as [n|]; simpl; [|done]. f_equal.
    repeat (case_bool_decide; simpl); try done;
      exfalso; rewrite ?elem_of_app, ?elem_of_nil in *; tauto. }
  split; [|split]; apply map_eq; intros key.
  - rewrite Hstep, !make_read_lookup.
    destruct (in_transaction s !! key) as [n|]; simpl; [|done]. f_equal.
    repeat (case_bool_decide; simpl); try done;
      exfalso; rewrite ?elem_of_app, ?elem_of_nil in *; tauto.
  - apply Hstep.
  - rewrite !Hstep, !make_read_lookup.
    destruct (in_transaction s !! key) as [n|]; simpl; [|done]. f_equal.
    repeat (case_bool_decide; simpl); try done;
      exfalso; rewrite ?elem_of_app, ?elem_of_nil in *; tauto.
Qed.

(** X6.  With an empty list of ids [make_read] changes no notification; it
    still writes its debug line and commits the transaction. *)
Theorem make_read_of_nothing recipient_id s :
  in_transaction (make_read recipient_id [] s) = in_transaction s
  ∧ committed (make_read recipient_id [] s) = in_transaction s
  ∧ debug_lines (make_read recipient_id [] s) = debug_lines s ++ [(recipient_id, [])].
Proof.
  assert (in_transaction (make_read recipient_id [] s) = in_transaction s) as H.
  { apply map_eq. intros key. rewrite make_read_lookup.
    destruct (in_transaction s !! key) as [n|]; simpl; [|done].
    repeat (case_bool_decide; simpl); try done;
      exfalso; rewrite ?elem_of_app, ?elem_of_nil in *; tauto. }
  split; [exact H|]. split; [exact H|reflexivity].
Qed.

(** * More on the handlers of [app/api/v1/endpoints/task.py] *)

Section Handler_properties.
Context (env : Collaborators).

(** The rows [task_crud.get_all] returns for a Plan. *)
Lemma elem_of_tasks_of_plan (m : gmap Z Task.t) (plan_id : PK_TYPE) (t : Task.t) :
  t ∈ filter (fun t => Task.plan_id t = plan_id) (map_to_list m).*2
  ↔ ∃ key, m !! key = Some t ∧ Task.plan_id t = plan_id.
Proof.
  rewrite list_elem_of_filter, list_elem_of_fmap. split.
  - intros [Hpid ([key t'] & -> & Hin)]. exists key. split; [|done].
    by apply elem_of_map_to_list in Hin.
  - intros (key & Hkey & Hpid). split; [done|]. exists (key, t). split; [done|].
    by apply elem_of_map_to_list.
Qed.

(** X7.  [get_tasks] writes nothing.  When it succeeds, the Plan exists, the
    user may access it, and the rows returned are exactly the Tasks stored
    under that Plan; a Plan without Tasks gives the empty list, not an
    error. *)
Theorem get_tasks_lists_the_plan plan_id user s :
  let request := get_tasks env plan_id user in
  db (session_after request s) = db s
  ∧ List.filter is_write (calls (session_after request s))
    = List.filter is_write (calls s)
  ∧ (∀ rows, outcome request s = Ok rows →
       is_Some (plans (db s) !! plan_id)
       ∧ may_access_plan env (User.id user) plan_id = true
       ∧ ∀ t, t ∈ rows ↔ ∃ key, tasks (db s) !! key = Some t
                                 ∧ Task.plan_id t = plan_id)
  ∧ (is_Some (plans (db s) !! plan_id) →
     may_access_plan env (User.id user) plan_id = true →
     (∀ key t, tasks (db s) !! key = Some t → Task.plan_id t ≠ plan_id) →
     outcome request s = Ok []).
Proof.
  run. split; [|split; [|split]].
  - repeat (branch; try done).
  - repeat (branch; try done);
      rewrite ?List.filter_app; simpl; rewrite ?app_nil_r; done.
  - intros rows.
    destruct (plans (db s) !! plan_id) as [plan|]; simpl; [|done].
    destruct (may_access_plan env (User.id user) plan_id); simpl; [|done].
    intros [= <-]. split; [eauto|]. split; [done|].
    intros t. apply elem_of_tasks_of_plan.
  - intros [plan Hp] Hacc Hnone. rewrite Hp, Hacc. simpl. f_equal.
    apply elem_of_nil_inv. intros t Hin.
    apply elem_of_tasks_of_plan in Hin as (key & Hkey & Hpid).
    by apply (Hnone key t).
Qed.

(** X8.  Reading is not gated by the role check: under two sets of
    collaborators that grant the same access, whatever their roles permit,
    [get_task] and [get_tasks] answer the same and leave the same session.
    A user whose role may not mutate still moves a Task to IN_PROGRESS by
    reading it. *)
Theorem reads_ignore_the_role (env' : Collaborators) task_id plan_id user s :
  may_access_task env' = may_access_task env →
  may_access_plan env' = may_access_plan env →
  get_task env' task_id user s = get_task env task_id user s
  ∧ get_tasks env' plan_id user s = get_tasks env plan_id user s.
Proof.
  intros Ht Hp. run. rewrite Ht, Hp. done.
Qed.

(** What [create_task] does when it returns a Task. *)
Lemma create_task_ok today plan_id task_create user s task :
  outcome (create_task env today plan_id task_create user) s = Ok task →
  tasks (db s) !! Task.id task = None
  ∧ task = Task.Build (Task.id task) plan_id TaskStatus.CREATED
             (TaskCreate.expires_at task_create)
  ∧ is_Some (plans (db s) !! plan_id)
  ∧ ∃ key, comments (db s) !! key = None
           ∧ db (session_after (create_task env today plan_id task_create user) s)
             = MkDB (<[Task.id task := task]> (tasks (db s))) (plans (db s))
                 (<[key := Comment.Build (Task.id task) (User.id user)
                              CommentType.TEXT
                              ("Задача создана " +:+ strftime_dmY env today)]>
                    (comments (db s))).
Proof.
  assert (Hfresh : tasks (db s) !! fresh (dom (tasks (db s))) = None).
  { apply not_elem_of_dom, is_fresh. }
  assert (Hfresh' : comments (db s) !! fresh (dom (comments (db s))) = None).
  { apply not_elem_of_dom, is_fresh. }
  run.
  destruct (plans (db s) !! plan_id) as [plan|]; simpl; [|done].
  destruct (may_access_plan env (User.id user) plan_id); simpl; [|done].
  destruct (role_permits_mutation env (User.role user)); simpl; [|done].
  destruct (TaskCreate.expires_at task_create) as [d|]; simpl.
  - destruct (bool_decide (d ≤ today)); simpl; [done|].
    destruct (Plan.expires_at plan) as [pe|]; simpl.
    + destruct (bool_decide (pe < d)); simpl; [done|].
      destruct (PlanStatus.eqb _ _); simpl; intros [= <-]; simpl;
        repeat split; eauto.
    + destruct (PlanStatus.eqb _ _); simpl; intros [= <-]; simpl;
        repeat split; eauto.
  - destruct (PlanStatus.eqb _ _); simpl; intros [= <-]; simpl;
      repeat split; eauto.
Qed.

(** What [create_task] does when it raises. *)
Lemma create_task_raise today plan_id task_create user s e :
  outcome (create_task env today plan_id task_create user) s = Raise e →
  db (session_after (create_task env today plan_id task_create user) s) = db s.
Proof.
  run. repeat (branch; try done).
Qed.

(** X10.  When [create_task] returns a Task: its key was free, it is stored
    under that key with the Plan of the request, status CREATED and the
    expiry of the request body; exactly one Comment is added, under a key
    that was free, for that Task, by the requesting user, of type TEXT, with
    the creation message for the day of the request; every other Task and
    Comment is as it was. *)
Theorem create_task_stores_task_and_comment today plan_id task_create user s task :
  let request := create_task env today plan_id task_create user in
  let s' := session_after request s in
  outcome request s = Ok task →
  tasks (db s) !! Task.id task = None
  ∧ task = Task.Build (Task.id task) plan_id TaskStatus.CREATED
             (TaskCreate.expires_at task_create)
  ∧ tasks (db s') = <[Task.id task := task]> (tasks (db s))
  ∧ ∃ key, comments (db s) !! key = None
           ∧ comments (db s')
             = <[key := Comment.Build (Task.id task) (User.id user)
                          CommentType.TEXT
                          ("Задача создана " +:+ strftime_dmY env today)]>
                 (comments (db s)).
Proof.
  intros request s' Hout.
  apply create_task_ok in Hout as (Hfree & Htask & _ & key & Hkey & Hdb).
  fold request in Hdb. fold s' in Hdb. rewrite Hdb. simpl. eauto 10.
Qed.

(** What [update_task] does when it returns a row. *)
Lemma update_task_ok task_id task_patch user s task' :
  outcome (update_task env task_id task_patch user) s = Ok task' →
  ∃ task, tasks (db s) !! task_id = Some task
          ∧ task' = apply_task_values task_patch task
          ∧ db (session_after (update_task env task_id task_patch user) s)
            = set_tasks (db s) (<[task_id := task']> (tasks (db s))).
Proof.
  run.
  destruct (tasks (db s) !! task_id) as [task|] eqn:Ht; simpl; [|done].
  destruct (may_access_task env (User.id user) task_id); simpl; [|done].
  destruct (role_permits_mutation env (User.role user)); simpl; [|done].
  destruct (TaskUpdate.expires_at task_patch) as [d|]; simpl.
  - destruct (Task.expires_at task) as [current|]; simpl.
    + destruct (bool_decide (current < d)); simpl; [|done].
      rewrite Ht. simpl. destruct (bool_decide _); simpl;
        [rewrite list_count_lambda|]; simpl; intros [= <-]; eauto.
    + destruct (new_date_for_undated_task env) as [[]|e0]; simpl; [|done].
      rewrite Ht. simpl. destruct (bool_decide _); simpl;
        [rewrite list_count_lambda|]; simpl; intros [= <-]; eauto.
  - rewrite Ht. simpl. destruct (bool_decide _); simpl;
      [rewrite list_count_lambda|]; simpl; intros [= <-]; eauto.
Qed.

(** What [update_task] does when it raises. *)
Lemma update_task_raise task_id task_patch user s e :
  outcome (update_task env task_id task_patch user) s = Raise e →
  db (session_after (update_task env task_id task_patch user) s) = db s.
Proof.
  run.
  destruct (tasks (db s) !! task_id) as [task|] eqn:Ht; simpl; [|done].
  destruct (may_access_task env (User.id user) task_id); simpl; [|done].
  destruct (role_permits_mutation env (User.role user)); simpl; [|done].
  destruct (TaskUpdate.expires_at task_patch) as [d|]; simpl.
  - destruct (Task.expires_at task) as [current|]; simpl.
    + destruct (bool_decide (current < d)); simpl; [|done].
      rewrite Ht. simpl. destruct (bool_decide _); simpl;
        [rewrite list_count_lambda|]; simpl; done.
    + destruct (new_date_for_undated_task env) as [[]|e0]; simpl; [|done].
      rewrite Ht. simpl. destruct (bool_decide _); simpl;
        [rewrite list_count_lambda|]; simpl; done.
  - rewrite Ht. simpl. destruct (bool_decide _); simpl;
      [rewrite list_count_lambda|]; simpl; done.
Qed.

(** X11.  [update_task] writes at most the row it is asked to: every other
    Task, every Plan and every Comment is as it was; no Task appears or
    disappears; and the row itself keeps its [id] and its [plan_id], so an
    update cannot move a Task to another Plan. *)
Theorem update_task_touches_one_row task_id task_patch user s :
  let s' := session_after (update_task env task_id task_patch user) s in
  plans (db s') = plans (db s)
  ∧ comments (db s') = comments (db s)
  ∧ (∀ key, key ≠ task_id → tasks (db s') !! key = tasks (db s) !! key)
  ∧ match tasks (db s) !! task_id with
    | Some task =>
        ∃ task', tasks (db s') !! task_id = Some task'
                 ∧ Task.id task' = Task.id task
                 ∧ Task.plan_id task' = Task.plan_id task
    | None => tasks (db s') !! task_id = None
    end.
Proof.
  intros s'.
  destruct (outcome (update_task env task_id task_patch user) s) as [task'|e] eqn:Hout.
  - apply update_task_ok in Hout as (task & Ht & -> & Hdb).
    fold s' in Hdb. rewrite Hdb, Ht. simpl.
    repeat split; [by intros; apply lookup_insert_ne|].
    eexists. rewrite lookup_insert_eq. done.
  - apply update_task_raise in Hout. fold s' in Hout. rewrite Hout.
    repeat split. destruct (tasks (db s) !! task_id); eauto.
Qed.

(** X12.  The row [update_task] returns is the row it has stored: the Task
    as it was with the fields of the patch written over it. *)
Theorem update_task_returns_the_stored_row task_id task_patch user s task' :
  outcome (update_task env task_id task_patch user) s = Ok task' →
  tasks (db (session_after (update_task env task_id task_patch user) s)) !! task_id
  = Some task'
  ∧ ∃ task, tasks (db s) !! task_id = Some task
            ∧ Task.status task'
              = default (Task.status task) (TaskUpdate.status task_patch)
            ∧ Task.expires_at task'
              = match TaskUpdate.expires_at task_patch with
                | Some d => Some d
                | None => Task.expires_at task
                end.
Proof.
  intros Hout. apply update_task_ok in Hout as (task & Ht & -> & Hdb).
  rewrite Hdb. simpl. rewrite lookup_insert_eq. split; [done|].
  exists task. done.
Qed.

(** X13.  A patch that carries no field changes nothing in the database,
    whether the request is accepted or refused. *)
Theorem update_task_with_empty_patch task_id user s :
  db (session_after (update_task env task_id (TaskUpdate.Build None None) user) s)
  = db s.
Proof.
  destruct (outcome (update_task env task_id (TaskUpdate.Build None None) user) s)
    as [task'|e] eqn:Hout.
  - apply update_task_ok in Hout as (task & Ht & -> & Hdb). rewrite Hdb.
    assert (apply_task_values (TaskUpdate.Build None None) task = task) as ->
      by (destruct task; reflexivity).
    rewrite insert_id by done. destruct (db s); reflexivity.
  - by apply update_task_raise in Hout.
Qed.

(** [update_task] on a Task that exists, for a user who passes the access
    and role checks. *)
Lemma update_task_validated task_id task_patch user s task :
  tasks (db s) !! task_id = Some task →
  may_access_task env (User.id user) task_id = true →
  role_permits_mutation env (User.role user) = true →
  outcome (update_task env task_id task_patch user) s
  = match TaskUpdate.expires_at task_patch, Task.expires_at task with
    | Some d, Some current =>
        if bool_decide (current < d)
        then Ok (apply_task_values task_patch task)
        else Raise InvalidDate
    | Some d, None =>
        match new_date_for_undated_task env with
        | Ok _ => Ok (apply_task_values task_patch task)
        | Raise e => Raise e
        end
    | None, _ => Ok (apply_task_values task_patch task)
    end.
Proof.
  intros Ht Hacc Hrole. run. rewrite Ht, Hacc, Hrole. simpl.
  destruct (TaskUpdate.expires_at task_patch) as [d|]; simpl.
  - destruct (Task.expires_at task) as [current|]; simpl.
    + destruct (bool_decide (current < d)); simpl; [|done].
      rewrite Ht. simpl. destruct (bool_decide _); simpl;
        [rewrite list_count_lambda|]; simpl; done.
    + destruct (new_date_for_undated_task env) as [[]|e0]; simpl; [|done].
      rewrite Ht. simpl. destruct (bool_decide _); simpl;
        [rewrite list_count_lambda|]; simpl; done.
  - rewrite Ht. simpl. destruct (bool_decide _); simpl;
      [rewrite list_count_lambda|]; simpl; done.
Qed.

(** A request that [update_task] accepts has passed the access and role
    checks. *)
Lemma update_task_ok_validated task_id task_patch user s task' :
  outcome (update_task env task_id task_patch user) s = Ok task' →
  may_access_task env (User.id user) task_id = true
  ∧ role_permits_mutation env (User.role user) = true.
Proof.
  run.
  destruct (tasks (db s) !! task_id) as [task|] eqn:Ht; simpl; [|done].
  destruct (may_access_task env (User.id user) task_id); simpl; [|done].
  destruct (role_permits_mutation env (User.role user)); simpl; done.
Qed.

(** X14.  A patch with an expiry cannot be sent twice: once it has been
    accepted, the same request is refused with InvalidDate, because the
    expiry it carries is no longer strictly after the one stored, and the
    database stays as the first request left it. *)
Theorem update_task_same_expiry_twice task_id task_patch user s task' d :
  TaskUpdate.expires_at task_patch = Some d →
  outcome (update_task env task_id task_patch user) s = Ok task' →
  let s' := session_after (update_task env task_id task_patch user) s in
  outcome (update_task env task_id task_patch user) s' = Raise InvalidDate
  ∧ db (session_after (update_task env task_id task_patch user) s') = db s'.
Proof.
  intros Hd Hout s'.
  destruct (update_task_ok_validated _ _ _ _ _ Hout) as [Hacc Hrole].
  apply update_task_ok in Hout as (task & Ht & -> & Hdb). fold s' in Hdb.
  assert (Ht' : tasks (db s') !! task_id = Some (apply_task_values task_patch task)).
  { rewrite Hdb. simpl. apply lookup_insert_eq. }
  clearbody s'.
  assert (Hraise : outcome (update_task env task_id task_patch user) s'
                   = Raise InvalidDate).
  { rewrite (update_task_validated _ _ _ _ _ Ht' Hacc Hrole), Hd.
    unfold apply_task_values at 1. simpl. rewrite Hd.
    rewrite bool_decide_eq_false_2 by lia. done. }
  split; [exact Hraise|]. by apply update_task_raise in Hraise.
Qed.

(** X15.  A patch without an expiry can be sent twice: the second request
    gets the same answer as the first and leaves the database as the first
    left it. *)
Theorem update_task_without_expiry_twice task_id task_patch user s :
  TaskUpdate.expires_at task_patch = None →
  let s' := session_after (update_task env task_id task_patch user) s in
  outcome (update_task env task_id task_patch user) s'
  = outcome (update_task env task_id task_patch user) s
  ∧ db (session_after (update_task env task_id task_patch user) s') = db s'.
Proof.
  intros Hd s'.
  destruct (outcome (update_task env task_id task_patch user) s)
    as [task'|e] eqn:Hout.
  - destruct (update_task_ok_validated _ _ _ _ _ Hout) as [Hacc Hrole].
    apply update_task_ok in Hout as (task & Ht & -> & Hdb). fold s' in Hdb.
    assert (Ht' : tasks (db s') !! task_id
                  = Some (apply_task_values task_patch task)).
    { rewrite Hdb. simpl. apply lookup_insert_eq. }
    assert (Hsame : apply_task_values task_patch (apply_task_values task_patch task)
                    = apply_task_values task_patch task).
    { unfold apply_task_values. simpl. rewrite Hd.
      destruct (TaskUpdate.status task_patch); reflexivity. }
    clearbody s'.
    assert (Hok : outcome (update_task env task_id task_patch user) s'
                  = Ok (apply_task_values task_patch task)).
    { rewrite (update_task_validated _ _ _ _ _ Ht' Hacc Hrole), Hd, Hsame. done. }
    split; [exact Hok|].
    apply update_task_ok in Hok as (task0 & Ht0 & _ & Hdb').
    rewrite Hdb'. rewrite insert_id by done. destruct (db s'); reflexivity.
  - assert (Hdb : db s' = db s) by (by apply update_task_raise in Hout).
    clearbody s'.
    assert (Hsame : ∀ s1 s2, db s1 = db s2 →
              outcome (update_task env task_id task_patch user) s1
              = outcome (update_task env task_id task_patch user) s2).
    { intros s1 s2 H12. run. rewrite H12.
      repeat (branch; try done); rewrite ?list_count_lambda; simpl;
        try done; rewrite ?list_count_lambda in *; simpl in *; done. }
    assert (Hraise : outcome (update_task env task_id task_patch user) s' = Raise e).
    { rewrite (Hsame s' s Hdb). exact Hout. }
    split; [exact Hraise|]. by apply update_task_raise in Hraise.
Qed.

(** A Task that does not exist: every handler that takes a Task answers
    NotFound and writes nothing. *)
Lemma task_not_found task_id task_patch user s :
  tasks (db s) !! task_id = None →
  (outcome (get_task env task_id user) s = Raise NotFound
   ∧ db (session_after (get_task env task_id user) s) = db s)
  ∧ (outcome (update_task env task_id task_patch user) s = Raise NotFound
     ∧ db (session_after (update_task env task_id task_patch user) s) = db s)
  ∧ (outcome (delete_task env task_id user) s = Raise NotFound
     ∧ db (session_after (delete_task env task_id user) s) = db s).
Proof.
  intros Ht. run. rewrite Ht. simpl. done.
Qed.

(** What [delete_task] does when it succeeds, and when it raises. *)
Lemma delete_task_ok task_id user s :
  outcome (delete_task env task_id user) s = Ok tt →
  is_Some (tasks (db s) !! task_id)
  ∧ db (session_after (delete_task env task_id user) s)
    = MkDB (delete task_id (tasks (db s))) (plans (db s))
        (filter (fun kc => Comment.task_id kc.2 ≠ task_id) (comments (db s))).
Proof.
  run. repeat (branch; try done).
Qed.

Lemma delete_task_raise task_id user s e :
  outcome (delete_task env task_id user) s = Raise e →
  db (session_after (delete_task env task_id user) s) = db s.
Proof.
  run. repeat (branch; try done).
Qed.

(** X16.  Missing rows.  A request for a Task that does not exist ends in
    NotFound, whoever asks and whatever the patch carries — the role and the
    dates are not looked at — and so does a request under a Plan that does
    not exist; none of them writes. *)
Theorem missing_rows_are_not_found s :
  (∀ task_id task_patch user,
     tasks (db s) !! task_id = None →
     outcome (get_task env task_id user) s = Raise NotFound
     ∧ outcome (update_task env task_id task_patch user) s = Raise NotFound
     ∧ outcome (delete_task env task_id user) s = Raise NotFound
     ∧ db (session_after (get_task env task_id user) s) = db s
     ∧ db (session_after (update_task env task_id task_patch user) s) = db s
     ∧ db (session_after (delete_task env task_id user) s) = db s)
  ∧ (∀ today plan_id task_create user,
       plans (db s) !! plan_id = None →
       outcome (get_tasks env plan_id user) s = Raise NotFound
       ∧ outcome (create_task env today plan_id task_create user) s = Raise NotFound
       ∧ db (session_after (create_task env today plan_id task_create user) s) = db s).
Proof.
  split.
  - intros task_id task_patch user Ht.
    destruct (task_not_found task_id task_patch user s Ht)
      as ([? ?] & [? ?] & [? ?]).
    repeat split; assumption.
  - intros today plan_id task_create user Hp. run. rewrite Hp. simpl. done.
Qed.

(** X17.  Once [delete_task] has succeeded the Task is gone for every user:
    reading, updating or deleting it again ends in NotFound and changes
    nothing. *)
Theorem deleted_task_is_gone task_id user s :
  outcome (delete_task env task_id user) s = Ok tt →
  let s' := session_after (delete_task env task_id user) s in
  ∀ task_patch user',
    outcome (get_task env task_id user') s' = Raise NotFound
    ∧ outcome (update_task env task_id task_patch user') s' = Raise NotFound
    ∧ outcome (delete_task env task_id user') s' = Raise NotFound
    ∧ db (session_after (delete_task env task_id user') s') = db s'.
Proof.
  intros Hout s' task_patch user'.
  apply delete_task_ok in Hout as [_ Hdb]. fold s' in Hdb.
  assert (Ht : tasks (db s') !! task_id = None).
  { rewrite Hdb. simpl. apply lookup_delete_eq. }
  clearbody s'.
  destruct (task_not_found task_id task_patch user' s' Ht)
    as ([? ?] & [? ?] & [? ?]).
  repeat split; assumption.
Qed.

(** [get_task] on a Task that exists, for a user who may access it and has
    no supervisor. *)
Lemma get_task_found task_id user s task :
  tasks (db s) !! task_id = Some task →
  may_access_task env (User.id user) task_id = true →
  User.supervisor_id user = None →
  outcome (get_task env task_id user) s = Ok task
  ∧ db (session_after (get_task env task_id user) s) = db s.
Proof.
  intros Ht Hacc Hsup. run. rewrite Ht, Hacc, Hsup. simpl.
  rewrite andb_false_r. done.
Qed.

(** X18.  A Task that [create_task] has returned can be read back under its
    [id] by every user who may access it and has no supervisor: [get_task]
    returns the Task as it was created and writes nothing. *)
Theorem created_task_can_be_read today plan_id task_create user s task user' :
  outcome (create_task env today plan_id task_create user) s = Ok task →
  may_access_task env (User.id user') (Task.id task) = true →
  User.supervisor_id user' = None →
  let s' := session_after (create_task env today plan_id task_create user) s in
  outcome (get_task env (Task.id task) user') s' = Ok task
  ∧ db (session_after (get_task env (Task.id task) user') s') = db s'.
Proof.
  intros Hout Hacc Hsup s'.
  apply create_task_ok in Hout as (_ & Htask & _ & key & _ & Hdb).
  fold s' in Hdb.
  assert (Ht : tasks (db s') !! Task.id task = Some task).
  { rewrite Hdb. simpl. apply lookup_insert_eq. }
  clearbody s'. exact (get_task_found _ _ _ _ Ht Hacc Hsup).
Qed.

(** X19.  [get_task] writes at most one Task and one Plan, and of the Task
    only the status: every Comment and every other Task is as it was, no
    Task appears or disappears, and the Task that was asked for keeps its
    [id], its Plan and its expiry, with its status as it was or moved from
    CREATED to IN_PROGRESS. *)
Theorem get_task_touches_one_status task_id user s :
  let s' := session_after (get_task env task_id user) s in
  comments (db s') = comments (db s)
  ∧ (∀ key, key ≠ task_id → tasks (db s') !! key = tasks (db s) !! key)
  ∧ match tasks (db s) !! task_id with
    | Some task =>
        tasks (db s') !! task_id = Some task
        ∨ (Task.status task = TaskStatus.CREATED
           ∧ tasks (db s') !! task_id
             = Some (Task.Build (Task.id task) (Task.plan_id task)
                       TaskStatus.IN_PROGRESS (Task.expires_at task)))
    | None => tasks (db s') !! task_id = None
    end.
Proof.
  intros s'.
  destruct (get_task_db env task_id user s)
    as [Hdb | (task & Ht & Hst & Hdb & _)]; fold s' in Hdb; rewrite Hdb.
  - split; [done|]. split; [done|]. destruct (tasks (db s) !! task_id); auto.
  - rewrite Ht. simpl. split; [done|]. split.
    + intros key Hne. by apply lookup_insert_ne.
    + right. split; [done|]. apply lookup_insert_eq.
Qed.

(** ** What a request can do to the tables *)

(** The five things a request does to the database: nothing; a first view;
    a creation; an update of one Task; a deletion of one Task. *)
Lemma serve_cases (r : Request) s :
  let d := db s in
  let d' := db (serve env r s) in
  d' = d
  ∨ (∃ task_id task,
       tasks d !! task_id = Some task
       ∧ d' = set_tasks d (<[task_id := viewed task]> (tasks d)))
  ∨ (∃ task key comment,
       tasks d !! Task.id task = None
       ∧ is_Some (plans d !! Task.plan_id task)
       ∧ comments d !! key = None
       ∧ Comment.task_id comment = Task.id task
       ∧ d' = MkDB (<[Task.id task := task]> (tasks d)) (plans d)
                (<[key := comment]> (comments d)))
  ∨ (∃ task_id task task_patch,
       tasks d !! task_id = Some task
       ∧ d' = set_tasks d (<[task_id := apply_task_values task_patch task]> (tasks d)))
  ∨ (∃ task_id,
       d' = MkDB (delete task_id (tasks d)) (plans d)
              (filter (fun kc => Comment.task_id kc.2 ≠ task_id) (comments d))).
Proof.
  intros d d'. subst d d'. destruct r as [tid u | today pid tc u | tid tp u | tid u].
  - unfold serve.
    destruct (get_task_db env tid u s) as [Hdb | (task & Ht & _ & Hdb & _)].
    + by left.
    + right. left. exists tid, task. done.
  - unfold serve.
    destruct (outcome (create_task env today pid tc u) s) as [task|e] eqn:Hout.
    + apply create_task_ok in Hout as (Hfree & Htask & Hplan & key & Hkey & Hdb).
      right. right. left. eexists task, key, _. rewrite Hdb.
      repeat split; [done| |done|reflexivity].
      rewrite Htask. simpl. done.
    + left. by apply create_task_raise in Hout.
  - unfold serve.
    destruct (outcome (update_task env tid tp u) s) as [task'|e] eqn:Hout.
    + apply update_task_ok in Hout as (task & Ht & -> & Hdb).
      right. right. right. left. exists tid, task, tp. done.
    + left. by apply update_task_raise in Hout.
  - unfold serve.
    destruct (outcome (delete_task env tid u) s) as [[]|e] eqn:Hout.
    + apply delete_task_ok in Hout as [_ Hdb].
      right. right. right. right. exists tid. done.
    + left. by apply delete_task_raise in Hout.
Qed.

(** A property of the database that every request keeps is kept by every
    sequence of requests. *)
Lemma serve_all_keeps (P : DB → Prop) :
  (∀ r s, P (db s) → P (db (serve env r s))) →
  ∀ rs s, P (db s) → P (db (serve_all env rs s)).
Proof.
  intros Hstep rs. induction rs as [|r rs IH]; intros s HP; [done|].
  unfold serve_all. simpl. apply IH, Hstep, HP.
Qed.

(** X21.  Over every sequence of requests from a state in which every Task
    points to an existing Plan, every Task points to an existing Plan:
    [create_task] refuses a Plan that does not exist, no request changes the
    [plan_id] of a Task, and no request removes a Plan. *)
Theorem tasks_keep_their_plans (rs : list Request) s :
  tasks_have_plans (db s) →
  tasks_have_plans (db (serve_all env rs s)).
Proof.
  revert rs s. apply (serve_all_keeps tasks_have_plans).
  intros r s Hinv. unfold tasks_have_plans, map_Forall in *.
  destruct (serve_cases r s)
    as [-> | [(tid & task & Ht & ->)
           | [(task & key & c & Hfree & Hplan & _ & _ & ->)
           | [(tid & task & tp & Ht & ->) | (tid & ->)]]]]; simpl.
  - exact Hinv.
  - intros k t' Hk. destruct (decide (k = tid)) as [->|Hne].
    + rewrite lookup_insert_eq in Hk. injection Hk as <-. simpl. eauto.
    + rewrite lookup_insert_ne in Hk by done. eauto.
  - intros k t' Hk. destruct (decide (k = Task.id task)) as [->|Hne].
    + rewrite lookup_insert_eq in Hk. by injection Hk as <-.
    + rewrite lookup_insert_ne in Hk by done. eauto.
  - intros k t' Hk. destruct (decide (k = tid)) as [->|Hne].
    + rewrite lookup_insert_eq in Hk. injection Hk as <-. simpl. eauto.
    + rewrite lookup_insert_ne in Hk by done. eauto.
  - intros k t' Hk. apply lookup_delete_Some in Hk as [_ Hk]. eauto.
Qed.

(** X22.  Over every sequence of requests from a state in which every
    Comment points to an existing Task, every Comment points to an existing
    Task: the Comment [create_task] writes is for the Task it has just
    stored, and the Comments of a deleted Task go with it. *)
Theorem comments_keep_their_tasks (rs : list Request) s :
  comments_have_tasks (db s) →
  comments_have_tasks (db (serve_all env rs s)).
Proof.
  revert rs s. apply (serve_all_keeps comments_have_tasks).
  intros r s Hinv. unfold comments_have_tasks, map_Forall in *.
  destruct (serve_cases r s)
    as [-> | [(tid & task & Ht & ->)
           | [(task & key & c & Hfree & Hplan & Hkey & Hc & ->)
           | [(tid & task & tp & Ht & ->) | (tid & ->)]]]]; simpl.
  - exact Hinv.
  - intros k c Hk. apply lookup_insert_is_Some'. eauto.
  - intros k c' Hk. apply lookup_insert_is_Some'.
    destruct (decide (k = key)) as [->|Hne].
    + rewrite lookup_insert_eq in Hk. injection Hk as <-. auto.
    + rewrite lookup_insert_ne in Hk by done. eauto.
  - intros k c Hk. apply lookup_insert_is_Some'. eauto.
  - intros k c Hk. apply map_lookup_filter_Some in Hk as [Hk Hne].
    simpl in Hne. rewrite lookup_delete_ne by done. eauto.
Qed.

End Handler_properties.

(** * The further theorems at concrete requests *)

Lemma make_read_marks_the_requested_witness :
  in_transaction inbox !! 1 = Some (Notification.Build 7%positive false "plan assigned")
  ∧ committed (make_read 7%positive [1; 3] inbox) !! 1
    = Some (Notification.Build 7%positive true "plan assigned").
Proof.
  split; [reflexivity|].
  apply (make_read_marks_the_requested 7%positive [1; 3] inbox 1
           (Notification.Build 7%positive false "plan assigned"));
    [reflexivity | reflexivity | apply (bool_decide_unpack _); vm_compute; exact I].
Defined.

(** User 7 names notification 3, which is for user 3. *)
Lemma make_read_leaves_the_others_witness :
  in_transaction inbox !! 3 = Some (Notification.Build 3%positive false "task done")
  ∧ in_transaction (make_read 7%positive [1; 3] inbox) !! 3
    = Some (Notification.Build 3%positive false "task done").
Proof.
  split; [reflexivity|].
  apply (make_read_leaves_the_others 7%positive [1; 3] inbox 3
           (Notification.Build 3%positive false "task done")); [reflexivity|].
  left. simpl. discriminate.
Defined.

(** Notification 2 was read in the transaction only; a call for user 3
    commits it. *)
Lemma make_read_commits_witness :
  committed inbox !! 2 = Some (Notification.Build 7%positive false "task created")
  ∧ committed (make_read 3%positive [3] inbox) !! 2
    = Some (Notification.Build 7%positive true "task created").
Proof.
  split; [reflexivity|].
  apply (proj2 (make_read_commits 3%positive [3] inbox) 2
           (Notification.Build 7%positive true "task created"));
    [reflexivity | simpl; discriminate].
Defined.

Lemma make_read_only_sets_the_flag_witness :
  in_transaction (make_read 3%positive [2; 5] inbox) !! 5 = None.
Proof.
  exact (make_read_only_sets_the_flag 3%positive [2; 5] inbox 5).
Defined.

Lemma get_tasks_lists_the_plan_witness :
  outcome (get_tasks permissive 10 subordinate) one_task_left
  = Ok [Task.Build 2 10 TaskStatus.IN_PROGRESS None;
        Task.Build 1 10 TaskStatus.DONE None]
  ∧ ∃ key, tasks (db one_task_left) !! key
           = Some (Task.Build 1 10 TaskStatus.DONE None).
Proof.
  assert (Hout : outcome (get_tasks permissive 10 subordinate) one_task_left
                 = Ok [Task.Build 2 10 TaskStatus.IN_PROGRESS None;
                       Task.Build 1 10 TaskStatus.DONE None])
    by (vm_compute; reflexivity).
  split; [exact Hout|].
  destruct (get_tasks_lists_the_plan permissive 10 subordinate one_task_left)
    as (_ & _ & Hrows & _).
  destruct (Hrows _ Hout) as (_ & _ & Hmem).
  destruct (proj1 (Hmem (Task.Build 1 10 TaskStatus.DONE None))) as (key & Hkey & _).
  - apply list_elem_of_In. simpl. auto.
  - exists key. exact Hkey.
Defined.

(** The permissive and the read-only collaborators grant the same access. *)
Lemma reads_ignore_the_role_witness :
  get_task read_only 1 subordinate untouched_plan
  = get_task permissive 1 subordinate untouched_plan.
Proof.
  apply (reads_ignore_the_role permissive read_only 1 10 subordinate untouched_plan);
    reflexivity.
Defined.

Lemma create_task_stores_task_and_comment_witness :
  outcome (create_task permissive 100 10 (TaskCreate.Build (Some 250)) supervisor)
    untouched_plan
  = Ok (Task.Build 2 10 TaskStatus.CREATED (Some 250))
  ∧ tasks (db untouched_plan) !! 2 = None.
Proof.
  assert (Hout : outcome (create_task permissive 100 10 (TaskCreate.Build (Some 250))
                            supervisor) untouched_plan
                 = Ok (Task.Build 2 10 TaskStatus.CREATED (Some 250)))
    by (vm_compute; reflexivity).
  split; [exact Hout|].
  exact (proj1 (create_task_stores_task_and_comment permissive 100 10
                  (TaskCreate.Build (Some 250)) supervisor untouched_plan _ Hout)).
Defined.

Lemma update_task_touches_one_row_witness :
  2 ≠ 1
  ∧ tasks (db (session_after
                 (update_task permissive 1
                    (TaskUpdate.Build (Some TaskStatus.IN_PROGRESS) None) supervisor)
                 one_task_left)) !! 2
    = tasks (db one_task_left) !! 2.
Proof.
  split; [lia|].
  apply (proj1 (proj2 (proj2 (update_task_touches_one_row permissive 1
           (TaskUpdate.Build (Some TaskStatus.IN_PROGRESS) None) supervisor
           one_task_left)))).
  lia.
Defined.

Lemma update_task_returns_the_stored_row_witness :
  outcome (update_task permissive 1
             (TaskUpdate.Build (Some TaskStatus.DONE) (Some 250)) supervisor)
    untouched_plan
  = Ok (Task.Build 1 10 TaskStatus.DONE (Some 250))
  ∧ tasks (db (session_after
                 (update_task permissive 1
                    (TaskUpdate.Build (Some TaskStatus.DONE) (Some 250)) supervisor)
                 untouched_plan)) !! 1
    = Some (Task.Build 1 10 TaskStatus.DONE (Some 250)).
Proof.
  assert (Hout : outcome (update_task permissive 1
                            (TaskUpdate.Build (Some TaskStatus.DONE) (Some 250))
                            supervisor) untouched_plan
                 = Ok (Task.Build 1 10 TaskStatus.DONE (Some 250)))
    by (vm_compute; reflexivity).
  split; [exact Hout|].
  exact (proj1 (update_task_returns_the_stored_row permissive 1 _ supervisor
                  untouched_plan _ Hout)).
Defined.

Lemma update_task_same_expiry_twice_witness :
  outcome (update_task permissive 1 (TaskUpdate.Build None (Some 250)) supervisor)
    untouched_plan
  = Ok (Task.Build 1 10 TaskStatus.CREATED (Some 250))
  ∧ outcome (update_task permissive 1 (TaskUpdate.Build None (Some 250)) supervisor)
      (session_after
         (update_task permissive 1 (TaskUpdate.Build None (Some 250)) supervisor)
         untouched_plan)
    = Raise InvalidDate.
Proof.
  assert (Hout : outcome (update_task permissive 1 (TaskUpdate.Build None (Some 250))
                            supervisor) untouched_plan
                 = Ok (Task.Build 1 10 TaskStatus.CREATED (Some 250)))
    by (vm_compute; reflexivity).
  split; [exact Hout|].
  exact (proj1 (update_task_same_expiry_twice permissive 1
                  (TaskUpdate.Build None (Some 250)) supervisor untouched_plan
                  _ 250 eq_refl Hout)).
Defined.

Lemma update_task_without_expiry_twice_witness :
  let request :=
    update_task permissive 1 (TaskUpdate.Build (Some TaskStatus.DONE) None) supervisor in
  db (session_after request (session_after request untouched_plan))
  = db (session_after request untouched_plan).
Proof.
  exact (proj2 (update_task_without_expiry_twice permissive 1
                  (TaskUpdate.Build (Some TaskStatus.DONE) None) supervisor
                  untouched_plan eq_refl)).
Defined.

Lemma missing_rows_are_not_found_witness :
  tasks (db untouched_plan) !! 5 = None
  ∧ outcome (update_task read_only 5 (TaskUpdate.Build None (Some 1)) subordinate)
      untouched_plan
    = Raise NotFound.
Proof.
  split; [reflexivity|].
  exact (proj1 (proj2 (proj1 (missing_rows_are_not_found read_only untouched_plan)
                         5 (TaskUpdate.Build None (Some 1)) subordinate eq_refl))).
Defined.

Lemma deleted_task_is_gone_witness :
  outcome (delete_task permissive 1 supervisor) untouched_plan = Ok tt
  ∧ outcome (get_task permissive 1 subordinate)
      (session_after (delete_task permissive 1 supervisor) untouched_plan)
    = Raise NotFound.
Proof.
  split; [reflexivity|].
  exact (proj1 (deleted_task_is_gone permissive 1 supervisor untouched_plan
                  eq_refl (TaskUpdate.Build None None) subordinate)).
Defined.

Lemma created_task_can_be_read_witness :
  User.supervisor_id supervisor = None
  ∧ outcome (get_task permissive 2 supervisor)
      (session_after
         (create_task permissive 100 10 (TaskCreate.Build (Some 250)) supervisor)
         untouched_plan)
    = Ok (Task.Build 2 10 TaskStatus.CREATED (Some 250)).
Proof.
  split; [reflexivity|].
  assert (Hout : outcome (create_task permissive 100 10 (TaskCreate.Build (Some 250))
                            supervisor) untouched_plan
                 = Ok (Task.Build 2 10 TaskStatus.CREATED (Some 250)))
    by (vm_compute; reflexivity).
  exact (proj1 (created_task_can_be_read permissive 100 10
                  (TaskCreate.Build (Some 250)) supervisor untouched_plan _
                  supervisor Hout eq_refl eq_refl)).
Defined.

Lemma get_task_touches_one_status_witness :
  2 ≠ 1
  ∧ tasks (db (session_after (get_task permissive 1 subordinate) untouched_plan)) !! 2
    = tasks (db untouched_plan) !! 2.
Proof.
  split; [lia|].
  apply (proj1 (proj2 (get_task_touches_one_status permissive 1 subordinate
                         untouched_plan))).
  lia.
Defined.

Lemma tasks_keep_their_plans_witness :
  let requests :=
    [CreateTask 100 10 (TaskCreate.Build None) supervisor;
     GetTask 3 subordinate; DeleteTask 1 supervisor] in
  tasks_have_plans (db one_task_left)
  ∧ tasks_have_plans (db (serve_all permissive requests one_task_left)).
Proof.
  intros requests.
  assert (Hinv : tasks_have_plans (db one_task_left)).
  { apply (bool_decide_unpack _). vm_compute. exact I. }
  split; [exact Hinv|].
  exact (tasks_keep_their_plans permissive requests one_task_left Hinv).
Defined.

Lemma comments_keep_their_tasks_witness :
  let requests :=
    [CreateTask 100 10 (TaskCreate.Build None) supervisor;
     GetTask 3 subordinate; DeleteTask 3 supervisor] in
  comments_have_tasks (db one_task_left)
  ∧ comments_have_tasks (db (serve_all permissive requests one_task_left)).
Proof.
  intros requests.
  assert (Hinv : comments_have_tasks (db one_task_left)).
  { apply (bool_decide_unpack _). vm_compute. exact I. }
  split; [exact Hinv|].
  exact (comments_keep_their_tasks permissive requests one_task_left Hinv).
Defined.
